(** * neural-condense-subnet: the text-compress protocol and the challenger benchmark

    A shallow embedding of

    - [neural_condense_core/protocol.py]: the [TextCompressProtocol] message
      with [get_miner_payload], [hide_ground_truth] and [deserialize];
    - [tests/test_synthetic.py]: [benchmark_challenger], the loop that drives
      the challenge generator, times it, counts failures and summarises.

    Python values are a small universe [pyval]; a [dict] is an association
    list in insertion order.  Python [float] is IEEE binary64, taken as the
    kernel's primitive floats; [int] is [Z].  Code that mutates an object or
    local variables and may raise runs in the monad [Py S], a state
    transformer that carries the state through an exception. *)

From Stdlib Require Import ZArith Ascii String List Lia Bool.
From Stdlib Require Import PrimFloat SpecFloat FloatOps.
From stdpp Require Import base option list strings.

Open Scope string_scope.
Open Scope list_scope.
Open Scope Z_scope.

(** ** Exceptions and results *)

(** The subclasses of [Exception] that the modelled code can meet.
    [RuntimeError] stands for the implementation-defined errors of the
    external collaborators. *)
Inductive exn : Type :=
  | ZeroDivisionError
  | OverflowError
  | TypeError
  | KeyError (key : string)
  | AttributeError (name : string)
  | ValidationError (field : string)
  | RuntimeError (msg : string).

Inductive result (A : Type) : Type :=
  | Ok (a : A)
  | Raise (e : exn).

Arguments Ok {A} a.
Arguments Raise {A} e.

Definition is_ok {A} (r : result A) : bool :=
  match r with Ok _ => true | Raise _ => false end.

Definition ok_val {A} (r : result A) : option A :=
  match r with Ok a => Some a | Raise _ => None end.

Definition rbind {A B} (r : result A) (k : A -> result B) : result B :=
  match r with Ok a => k a | Raise e => Raise e end.

Declare Scope result_scope.
Delimit Scope result_scope with res.
Notation "'try!' x := r 'in' k" := (rbind r (fun x => k))
  (at level 10, x name, r at level 100, k at level 200,
   format "'[v' 'try!'  x  :=  r  'in' '/' k ']'") : result_scope.
Open Scope result_scope.

(** ** Python values *)

#[local] Set Warnings "-register-all".

Inductive pyval : Type :=
  | PNone
  | PBool (b : bool)
  | PInt (z : Z)
  | PFloat (f : float)
  | PStr (s : string)
  | PList (l : list pyval)
  | PDict (d : list (string * pyval)).

(** A [dict] with string keys, in insertion order, no key twice. *)
Abbreviation pydict := (list (string * pyval)).

Fixpoint dict_get {V} (d : list (string * V)) (k : string) : option V :=
  match d with
  | [] => None
  | (k', v) :: d' => if String.eqb k' k then Some v else dict_get d' k
  end.

(** [d[k] = v]: an existing key keeps its place, a new key goes last. *)
Fixpoint dict_set {V} (d : list (string * V)) (k : string) (v : V)
  : list (string * V) :=
  match d with
  | [] => [(k, v)]
  | (k', v') :: d' =>
      if String.eqb k' k then (k', v) :: d' else (k', v') :: dict_set d' k v
  end.

Definition dict_keys {V} (d : list (string * V)) : list string := map fst d.

(** [v[k]] for a string key [k]: only a dict can be subscripted by a string. *)
Definition py_getitem (v : pyval) (k : string) : result pyval :=
  match v with
  | PDict d =>
      match dict_get d k with
      | Some x => Ok x
      | None => Raise (KeyError k)
      end
  | _ => Raise TypeError
  end.

(** [len(v)]; a character of a [str] is one [ascii]. *)
Definition py_len (v : pyval) : result Z :=
  match v with
  | PStr s => Ok (Z.of_nat (String.length s))
  | PList l => Ok (Z.of_nat (length l))
  | PDict d => Ok (Z.of_nat (length d))
  | _ => Raise TypeError
  end.

(** ** Numbers *)

Definition is_infinite (x : spec_float) : bool :=
  match x with S754_infinity _ => true | _ => false end.

(** An integer as an exact, unrounded binary float. *)
Definition Z2SF (z : Z) : spec_float :=
  match z with
  | Z0 => S754_zero false
  | Zpos p => S754_finite false p 0
  | Zneg p => S754_finite true p 0
  end.

(** [float(z)]: round to nearest even, [OverflowError] past the largest
    finite double. *)
Definition int_to_float (z : Z) : result float :=
  let x := binary_normalize prec emax z 0 false in
  if is_infinite x then Raise OverflowError else Ok (SF2Prim x).

(** [a / b] on [int]: the correctly rounded quotient. *)
Definition int_truediv (a b : Z) : result float :=
  if (b =? 0)%Z then Raise ZeroDivisionError
  else
    let q := SFdiv prec emax (Z2SF a) (Z2SF b) in
    if is_infinite q then Raise OverflowError else Ok (SF2Prim q).

(** [x / y] on [float]. *)
Definition float_truediv (x y : float) : result float :=
  if PrimFloat.eqb y 0%float then Raise ZeroDivisionError
  else Ok (PrimFloat.div x y).

Inductive number : Type :=
  | NInt (z : Z)
  | NFloat (f : float).

(** The numeric tower: [bool] is an [int]. *)
Definition as_number (v : pyval) : option number :=
  match v with
  | PBool b => Some (NInt (if b then 1 else 0))
  | PInt z => Some (NInt z)
  | PFloat f => Some (NFloat f)
  | _ => None
  end.

(** [a + b] on numbers; [int + float] converts the [int] first. *)
Definition py_add (a b : pyval) : result pyval :=
  match as_number a, as_number b with
  | Some (NInt x), Some (NInt y) => Ok (PInt (x + y))
  | Some (NInt x), Some (NFloat y) =>
      try! fx := int_to_float x in Ok (PFloat (PrimFloat.add fx y))
  | Some (NFloat x), Some (NInt y) =>
      try! fy := int_to_float y in Ok (PFloat (PrimFloat.add x fy))
  | Some (NFloat x), Some (NFloat y) => Ok (PFloat (PrimFloat.add x y))
  | _, _ => Raise TypeError
  end.

(** [a / b] on numbers (true division). *)
Definition py_truediv (a b : pyval) : result pyval :=
  match as_number a, as_number b with
  | Some (NInt x), Some (NInt y) =>
      try! q := int_truediv x y in Ok (PFloat q)
  | Some (NInt x), Some (NFloat y) =>
      try! fx := int_to_float x in
      try! q := float_truediv fx y in Ok (PFloat q)
  | Some (NFloat x), Some (NInt y) =>
      try! fy := int_to_float y in
      try! q := float_truediv x fy in Ok (PFloat q)
  | Some (NFloat x), Some (NFloat y) =>
      try! q := float_truediv x y in Ok (PFloat q)
  | _, _ => Raise TypeError
  end.

(** ** Stateful code that may raise *)

(** A computation over a mutable state [S]: the state it leaves, and either
    a value or the exception raised.  A raise keeps the mutations made
    before it. *)
Definition Py (S A : Type) : Type := S -> S * result A.

Definition ret {S A} (a : A) : Py S A := fun s => (s, Ok a).

Definition bind {S A B} (m : Py S A) (k : A -> Py S B) : Py S B :=
  fun s =>
    match m s with
    | (s', Ok a) => k a s'
    | (s', Raise e) => (s', Raise e)
    end.

Definition lift {S A} (r : result A) : Py S A := fun s => (s, r).

Definition get {S} : Py S S := fun s => (s, Ok s).

Definition modify {S} (f : S -> S) : Py S unit := fun s => (f s, Ok tt).

(** [try: m except Exception as e: h e] *)
Definition try_except {S A} (m : Py S A) (h : exn -> Py S A) : Py S A :=
  fun s =>
    match m s with
    | (s', Ok a) => (s', Ok a)
    | (s', Raise e) => h e s'
    end.

(** [for x in l: body x] *)
Fixpoint for_each {S X} (l : list X) (body : X -> Py S unit) : Py S unit :=
  match l with
  | [] => ret tt
  | x :: l' => bind (body x) (fun _ => for_each l' body)
  end.

Declare Scope py_scope.
Delimit Scope py_scope with py.
Notation "x <~ m ;; k" := (bind m (fun x => k))
  (at level 100, m at next level, right associativity) : py_scope.
Notation "m ;;; k" := (bind m (fun _ => k))
  (at level 100, right associativity) : py_scope.
Open Scope py_scope.

(** [range(n)] *)
Definition range (n : Z) : list Z := seqZ 0 n.

(** ** protocol.py: [TextCompressProtocol] *)

(** The three fields the class declares; the transport's own bookkeeping
    (the [Synapse] base class) is outside the model. *)
Record TextCompressProtocol : Type := {
  context : string;
  compressed_tokens : list (list float);
  expected_completion : string;
}.

(** The declared defaults: [""], [[]], [""]. *)
Definition TextCompressProtocol_default : TextCompressProtocol :=
  {| context := ""; compressed_tokens := []; expected_completion := "" |}.

(** A [List[List[float]]] as a Python value. *)
Definition tokens_value (rows : list (list float)) : pyval :=
  PList (map (fun row => PList (map PFloat row)) rows).

Definition get_miner_payload : Py TextCompressProtocol pyval :=
  self <~ get ;;
  ret (PDict [("context", PStr (context self))]).

Definition hide_ground_truth : Py TextCompressProtocol pyval :=
  modify (fun self =>
    {| context := context self;
       compressed_tokens := compressed_tokens self;
       expected_completion := "" |}) ;;;
  ret PNone.

Definition deserialize : Py TextCompressProtocol pyval :=
  self <~ get ;;
  ret (PDict [("context", PStr (context self));
              ("compressed_tokens", tokens_value (compressed_tokens self));
              ("expected_completion", PStr (expected_completion self))]).

(** *** Building a message from keyword arguments

    The constructor is the framework's: each declared field is read from the
    mapping when present and validated against its annotation, and takes its
    default otherwise; other keys are ignored.  A [float] cell accepts a
    [float], and an [int] through [float()]; the further coercions of the
    validation library are left out, and meet a [ValidationError] here. *)

Definition validate_str (field : string) (v : pyval) : result string :=
  match v with
  | PStr s => Ok s
  | _ => Raise (ValidationError field)
  end.

Definition validate_float (field : string) (v : pyval) : result float :=
  match v with
  | PFloat f => Ok f
  | PInt z =>
      match int_to_float z with
      | Ok f => Ok f
      | Raise _ => Raise (ValidationError field)
      end
  | _ => Raise (ValidationError field)
  end.

Fixpoint validate_list {A} (field : string) (elem : pyval -> result A)
    (l : list pyval) : result (list A) :=
  match l with
  | [] => Ok []
  | v :: l' =>
      try! a := elem v in
      try! r := validate_list field elem l' in
      Ok (a :: r)
  end.

Definition validate_row (field : string) (v : pyval) : result (list float) :=
  match v with
  | PList l => validate_list field (validate_float field) l
  | _ => Raise (ValidationError field)
  end.

Definition validate_tokens (field : string) (v : pyval)
  : result (list (list float)) :=
  match v with
  | PList l => validate_list field (validate_row field) l
  | _ => Raise (ValidationError field)
  end.

Definition field_or {A} (d : pydict) (field : string)
    (validate : string -> pyval -> result A) (default : A) : result A :=
  match dict_get d field with
  | Some v => validate field v
  | None => Ok default
  end.

Definition TextCompressProtocol_init (kwargs : pydict)
  : result TextCompressProtocol :=
  try! c := field_or kwargs "context" validate_str "" in
  try! t := field_or kwargs "compressed_tokens" validate_tokens [] in
  try! e := field_or kwargs "expected_completion" validate_str "" in
  Ok {| context := c; compressed_tokens := t; expected_completion := e |}.

(** The message rebuilt from a value off the wire, its entries passed as
    keyword arguments. *)
Definition from_wire (wire : pyval) : result TextCompressProtocol :=
  match wire with
  | PDict kwargs => TextCompressProtocol_init kwargs
  | _ => Raise TypeError
  end.

(** ** test_synthetic.py: [benchmark_challenger] *)

(** An object as its attributes. *)
Abbreviation pyobject := (list (string * pyval)).

Definition py_getattr (o : pyobject) (name : string) : result pyval :=
  match dict_get o name with
  | Some v => Ok v
  | None => Raise (AttributeError name)
  end.

(** The collaborators the harness calls and does not define.  The calls made
    at iteration [i] for a task are told apart by [i] and the task:

    - [env_generate i model_name task max_chars]: what
      [asyncio.run(challenger.generate_challenge(...))] yields there, an
      object or an exception;
    - [env_time i task]: the two readings of [time.time()], before the
      generation and after it;
    - [env_tokenizer name]: the [encode] of the tokenizer loaded under
      [name];
    - [env_mean], [env_std]: [mean()] and [std()] of an integer array.

    Loading the tokenizer, building the generator and opening the output
    file are taken to succeed; what is printed is left out. *)
Record Env : Type := {
  env_generate : Z -> string -> string -> Z -> result pyobject;
  env_time : Z -> string -> float * float;
  env_tokenizer : string -> pyval -> result (list Z);
  env_mean : list Z -> float;
  env_std : list Z -> float;
}.

(** The local variables of [benchmark_challenger] that change as it runs,
    the progress bar's count, and the file it writes ([None] until
    written). *)
Record locals : Type := {
  time_logs : pydict;
  error_count : Z;
  dataset_items : list pyval;
  context_lengths : list Z;
  token_counts : list Z;
  pbar : Z;
  synthetic_samples_json : option (list pyval);
}.

Definition set_time_logs (f : pydict -> pydict) (st : locals) : locals :=
  {| time_logs := f (time_logs st); error_count := error_count st;
     dataset_items := dataset_items st; context_lengths := context_lengths st;
     token_counts := token_counts st; pbar := pbar st;
     synthetic_samples_json := synthetic_samples_json st |}.

Definition set_error_count (f : Z -> Z) (st : locals) : locals :=
  {| time_logs := time_logs st; error_count := f (error_count st);
     dataset_items := dataset_items st; context_lengths := context_lengths st;
     token_counts := token_counts st; pbar := pbar st;
     synthetic_samples_json := synthetic_samples_json st |}.

Definition set_dataset_items (f : list pyval -> list pyval) (st : locals)
  : locals :=
  {| time_logs := time_logs st; error_count := error_count st;
     dataset_items := f (dataset_items st);
     context_lengths := context_lengths st;
     token_counts := token_counts st; pbar := pbar st;
     synthetic_samples_json := synthetic_samples_json st |}.

Definition set_context_lengths (f : list Z -> list Z) (st : locals) : locals :=
  {| time_logs := time_logs st; error_count := error_count st;
     dataset_items := dataset_items st;
     context_lengths := f (context_lengths st);
     token_counts := token_counts st; pbar := pbar st;
     synthetic_samples_json := synthetic_samples_json st |}.

Definition set_token_counts (f : list Z -> list Z) (st : locals) : locals :=
  {| time_logs := time_logs st; error_count := error_count st;
     dataset_items := dataset_items st; context_lengths := context_lengths st;
     token_counts := f (token_counts st); pbar := pbar st;
     synthetic_samples_json := synthetic_samples_json st |}.

Definition set_pbar (f : Z -> Z) (st : locals) : locals :=
  {| time_logs := time_logs st; error_count := error_count st;
     dataset_items := dataset_items st; context_lengths := context_lengths st;
     token_counts := token_counts st; pbar := f (pbar st);
     synthetic_samples_json := synthetic_samples_json st |}.

Definition set_synthetic_samples_json (v : option (list pyval)) (st : locals)
  : locals :=
  {| time_logs := time_logs st; error_count := error_count st;
     dataset_items := dataset_items st; context_lengths := context_lengths st;
     token_counts := token_counts st; pbar := pbar st;
     synthetic_samples_json := v |}.

(** [c += 1] *)
Definition incr (c : Z) : Z := c + 1.

(** [l.append(x)] *)
Definition append {A} (x : A) (l : list A) : list A := l ++ [x].

(** The task list of the source: one task, three commented out. *)
Definition tasks : list string := ["question_answering"].

(** [item["data"]["task_data"]["formatted_context"]] *)
Definition formatted_context (item : pyval) : result pyval :=
  try! data := py_getitem item "data" in
  try! task_data := py_getitem data "task_data" in
  py_getitem task_data "formatted_context".

(** [{task: total_time / n_iterations for task, total_time in items}], onto
    the entries [acc] made so far. *)
Fixpoint avg_time_comprehension (items acc : pydict) (n_iterations : Z)
  : result pydict :=
  match items with
  | [] => Ok acc
  | (task, total_time) :: rest =>
      try! avg := py_truediv total_time (PInt n_iterations) in
      avg_time_comprehension rest (dict_set acc task avg) n_iterations
  end.

Section Harness.

Variable E : Env.
(** The task list, [tasks] in the source. *)
Variable task_list : list string.
Variables (n_iterations max_characters : Z) (model_name : string).

Definition tokenizer : pyval -> result (list Z) :=
  if String.eqb model_name "universal"
  then env_tokenizer E "gpt2"
  else env_tokenizer E model_name.

(** The state at the loop's entry: [{task: 0 for task in tasks}], no
    error, empty lists. *)
Definition initial_locals : locals :=
  {| time_logs := fold_left (fun d task => dict_set d task (PInt 0)) task_list [];
     error_count := 0;
     dataset_items := [];
     context_lengths := [];
     token_counts := [];
     pbar := 0;
     synthetic_samples_json := None |}.

Definition make_item (i : Z) (task : string) (data : pyval) : pyval :=
  PDict [("task", PStr task);
         ("id", PInt i);
         ("data", data);
         ("model_id", PStr model_name);
         ("max_characters", PInt max_characters)].

(** The body of the [try]. *)
Definition try_body (i : Z) (task : string) : Py locals unit :=
  let start_time := fst (env_time E i task) in
  protocol <~ lift (env_generate E i model_name task max_characters) ;;
  data <~ lift (py_getattr protocol "validator_payload") ;;
  let item := make_item i task data in
  (* time_logs[task] += time.time() - start_time *)
  st <~ get ;;
  total <~ lift (py_getitem (PDict (time_logs st)) task) ;;
  total' <~ lift (py_add total
               (PFloat (PrimFloat.sub (snd (env_time E i task)) start_time))) ;;
  modify (set_time_logs (fun d => dict_set d task total')) ;;;
  (* context_lengths.append(len(...)) *)
  text <~ lift (formatted_context item) ;;
  n_chars <~ lift (py_len text) ;;
  modify (set_context_lengths (append n_chars)) ;;;
  (* token_counts.append(len(tokenizer.encode(...))) *)
  text' <~ lift (formatted_context item) ;;
  tokens <~ lift (tokenizer text') ;;
  modify (set_token_counts (append (Z.of_nat (List.length tokens)))) ;;;
  modify (set_dataset_items (append item)).

(** One pass of the inner loop: the [try], its handler, which counts the
    error and leaves the pass by [continue], and the progress bar. *)
Definition attempt (i : Z) (task : string) : Py locals unit :=
  completed <~ try_except
                 (try_body i task ;;; ret true)
                 (fun _ => modify (set_error_count incr) ;;;
                           ret false) ;;
  if completed : bool then modify (set_pbar incr) else ret tt.

Definition loops : Py locals unit :=
  for_each (range n_iterations) (fun i =>
    for_each task_list (fun task => attempt i task)).

Definition benchmark_challenger_on : Py locals pyval :=
  let total_iterations := n_iterations * Z.of_nat (List.length task_list) in
  loops ;;;
  st <~ get ;;
  avg_time_logs <~ lift (avg_time_comprehension (time_logs st) [] n_iterations) ;;
  error_rate <~ lift (py_truediv (PInt (error_count st)) (PInt total_iterations)) ;;
  let mean_length := env_mean E (context_lengths st) in
  let std_length := env_std E (context_lengths st) in
  let mean_tokens := env_mean E (token_counts st) in
  let std_tokens := env_std E (token_counts st) in
  modify (set_synthetic_samples_json (Some (dataset_items st))) ;;;
  ret (PDict [("error_count", PInt (error_count st));
              ("error_rate", error_rate);
              ("avg_time_per_task", PDict avg_time_logs);
              ("context_length_mean", PFloat mean_length);
              ("context_length_std", PFloat std_length);
              ("token_count_mean", PFloat mean_tokens);
              ("token_count_std", PFloat std_tokens)]).

End Harness.

(** The function of the source: its own task list, fresh locals. *)
Definition benchmark_challenger (E : Env) (n_iterations max_characters : Z)
    (model_name : string) : locals * result pyval :=
  benchmark_challenger_on E tasks n_iterations max_characters model_name
    (initial_locals tasks).

(** ** What one pass yields, read off the collaborators

    The same steps as [try_body], without the state: what the generation
    gives, what is measured on the item, and the item a pass that raises
    nothing appends. *)

Section Outcomes.

Variable E : Env.
Variable task_list : list string.
Variables (n_iterations max_characters : Z) (model_name : string).

(** The pairs the two loops go through, in the order they are requested. *)
Definition attempts : list (Z * string) :=
  flat_map (fun i => map (fun task => (i, task)) task_list)
           (range n_iterations).

(** The payload of the generated object. *)
Definition generated (i : Z) (task : string) : result pyval :=
  try! protocol := env_generate E i model_name task max_characters in
  py_getattr protocol "validator_payload".

Definition elapsed (i : Z) (task : string) : float :=
  PrimFloat.sub (snd (env_time E i task)) (fst (env_time E i task)).

(** The formatted context of an item and its length. *)
Definition extracted (item : pyval) : result (pyval * Z) :=
  try! text := formatted_context item in
  try! n_chars := py_len text in
  Ok (text, n_chars).

(** The item of a pass in which nothing raises. *)
Definition attempt_item (i : Z) (task : string) : result pyval :=
  try! data := generated i task in
  let item := make_item max_characters model_name i task data in
  try! measured := extracted item in
  try! tokens := tokenizer E model_name (fst measured) in
  Ok item.

Definition succeeds (a : Z * string) : bool :=
  is_ok (attempt_item (fst a) (snd a)).

Definition fails (a : Z * string) : bool := negb (succeeds a).

(** The running total of a task after the passes [l], from [total]: each
    pass for the task whose generation yields a payload adds its elapsed
    time, in order. *)
Fixpoint accumulated_time (l : list (Z * string)) (task : string)
    (total : pyval) : result pyval :=
  match l with
  | [] => Ok total
  | (i, t) :: l' =>
      if String.eqb t task && is_ok (generated i t)
      then
        try! total' := py_add total (PFloat (elapsed i t)) in
        accumulated_time l' task total'
      else accumulated_time l' task total
  end.

(** The number of passes in which something raises. *)
Definition failures : Z :=
  Z.of_nat (List.length (List.filter fails attempts)).

(** The items of the passes in which nothing raises, in order. *)
Definition generated_items : list pyval :=
  omap (fun a => ok_val (attempt_item (fst a) (snd a))) attempts.

End Outcomes.

(** ** A sample environment

    One that meets every way a pass can end: iteration 1 fails in the
    generator, iteration 3 yields a payload without ["task_data"], iteration
    4 yields a formatted context the tokenizer refuses, the others yield a
    text of [100 * (i + 1)] characters.  A generation takes a quarter of a
    second; the tokenizer makes a token of four characters. *)

Definition text_of_length (n : Z) : string :=
  string_of_list_ascii (repeat "a"%char (Z.to_nat n)).

Definition sample_payload (i : Z) : pyval :=
  if i =? 3 then PDict [("note", PStr "no task data")]
  else if i =? 4 then
    PDict [("task_data", PDict [("formatted_context", PList [])])]
  else
    PDict [("task_data",
            PDict [("formatted_context", PStr (text_of_length (100 * (i + 1))))])].

Definition float_of_int (z : Z) : float :=
  match int_to_float z with Ok f => f | Raise _ => nan end.

Definition sample_mean (l : list Z) : float :=
  PrimFloat.div
    (fold_left (fun acc x => PrimFloat.add acc (float_of_int x)) l 0%float)
    (float_of_int (Z.of_nat (List.length l))).

Definition sample_std (l : list Z) : float :=
  let m := sample_mean l in
  PrimFloat.sqrt
    (PrimFloat.div
       (fold_left
          (fun acc x =>
             let d := PrimFloat.sub (float_of_int x) m in
             PrimFloat.add acc (PrimFloat.mul d d)) l 0%float)
       (float_of_int (Z.of_nat (List.length l)))).

Definition sample_env : Env :=
  {| env_generate := fun i _ _ _ =>
       if i =? 1 then Raise (RuntimeError "generation failed")
       else Ok [("validator_payload", sample_payload i)];
     env_time := fun i _ =>
       (float_of_int i, PrimFloat.add (float_of_int i) 0.25%float);
     env_tokenizer := fun _ text =>
       match text with
       | PStr s => Ok (repeat 7 (String.length s / 4)%nat)
       | _ => Raise TypeError
       end;
     env_mean := sample_mean;
     env_std := sample_std |}.

(** A running total is the [0] it starts as, or a [float]. *)
Definition is_total (v : pyval) : Prop :=
  v = PInt 0 \/ exists f, v = PFloat f.

(** Every task of [tl] has a running total in [d]. *)
Definition totals_ok (d : pydict) (tl : list string) : Prop :=
  forall task, In task tl ->
    exists total, dict_get d task = Some total /\ is_total total.

(** The item a pass appends, if any. *)
Definition appended (r : result pyval) : list pyval :=
  match r with Ok item => [item] | Raise _ => [] end.

(** The locals at the loop's entry for the source's task list. *)
Definition sample_locals : locals := initial_locals tasks.

(** A run of five iterations in the sample environment: the locals it
    leaves and the summary it returns. *)
Definition sample_run : locals * result pyval :=
  Eval vm_compute in benchmark_challenger sample_env 5 1000 "universal".

Definition sample_final : locals := Eval vm_compute in fst sample_run.

Definition sample_summary : pyval :=
  Eval vm_compute in
    match snd sample_run with Ok summary => summary | Raise _ => PNone end.

(** ** The samples a pass records, and the module-level run *)

Section Samples.

Variable E : Env.
Variables (max_characters : Z) (model_name : string).

(** The context length a pass appends: that of the formatted context, when
    the generation gives a payload and the extraction raises nothing. *)
Definition context_sample (a : Z * string) : option Z :=
  match generated E max_characters model_name (fst a) (snd a) with
  | Ok data =>
      match extracted (make_item max_characters model_name (fst a) (snd a) data) with
      | Ok (_, n_chars) => Some n_chars
      | Raise _ => None
      end
  | Raise _ => None
  end.

(** The token count a pass appends: that of the encoded formatted context,
    when the tokenizer raises nothing either. *)
Definition token_sample (a : Z * string) : option Z :=
  match generated E max_characters model_name (fst a) (snd a) with
  | Ok data =>
      match extracted (make_item max_characters model_name (fst a) (snd a) data) with
      | Ok (text, _) =>
          match tokenizer E model_name text with
          | Ok tokens => Some (Z.of_nat (List.length tokens))
          | Raise _ => None
          end
      | Raise _ => None
      end
  | Raise _ => None
  end.

(** The passes in which only the tokenizer raises. *)
Definition tokenizer_fails (a : Z * string) : bool :=
  match context_sample a, token_sample a with
  | Some _, None => true
  | _, _ => false
  end.

End Samples.


(** An environment whose generator always raises. *)
Definition failing_env : Env :=
  {| env_generate := fun _ _ _ _ => Raise (RuntimeError "generation failed");
     env_time := fun i _ =>
       (float_of_int i, PrimFloat.add (float_of_int i) 0.25%float);
     env_tokenizer := env_tokenizer sample_env;
     env_mean := sample_mean;
     env_std := sample_std |}.

(** The value a run returned, [None] if it raised. *)
Definition returned (run : locals * result pyval) : pyval :=
  match snd run with Ok value => value | Raise _ => PNone end.

(** * Properties *)

(** ** Dictionaries *)

Lemma dict_get_set_eq {V} (d : list (string * V)) k v :
  dict_get (dict_set d k v) k = Some v.
Proof.
  induction d as [|[k' v'] d IH]; simpl.
  - now rewrite String.eqb_refl.
  - destruct (String.eqb k' k) eqn:Hk; simpl; now rewrite Hk.
Qed.

Lemma dict_get_set_ne {V} (d : list (string * V)) k k' v :
  k <> k' -> dict_get (dict_set d k v) k' = dict_get d k'.
Proof.
  intros Hne. induction d as [|[k0 v0] d IH]; simpl.
  - destruct (String.eqb k k') eqn:Hk; [|reflexivity].
    apply String.eqb_eq in Hk. contradiction.
  - destruct (String.eqb k0 k) eqn:Hk; simpl.
    + apply String.eqb_eq in Hk. subst k0.
      destruct (String.eqb k k') eqn:Hk'; [|reflexivity].
      apply String.eqb_eq in Hk'. contradiction.
    + now rewrite IH.
Qed.

Lemma dict_get_Some_In {V} (d : list (string * V)) k v :
  dict_get d k = Some v -> In k (dict_keys d).
Proof.
  induction d as [|[k' v'] d IH]; simpl; [discriminate|].
  destruct (String.eqb k' k) eqn:Hk.
  - apply String.eqb_eq in Hk. now left.
  - intros H. right. now apply IH.
Qed.

Lemma dict_get_In {V} (d : list (string * V)) k :
  In k (dict_keys d) -> exists v, dict_get d k = Some v.
Proof.
  induction d as [|[k' v'] d IH]; simpl; [contradiction|].
  intros [->|Hin].
  - rewrite String.eqb_refl. eauto.
  - destruct (String.eqb k' k); eauto.
Qed.

(** Setting a key that is there keeps the keys and their order. *)
Lemma dict_keys_set_In {V} (d : list (string * V)) k v :
  In k (dict_keys d) -> dict_keys (dict_set d k v) = dict_keys d.
Proof.
  induction d as [|[k' v'] d IH]; simpl; [contradiction|].
  intros Hin. destruct (String.eqb k' k) eqn:Hk; simpl; [reflexivity|].
  f_equal. apply IH. destruct Hin as [->|Hin]; [|assumption].
  rewrite String.eqb_refl in Hk. discriminate.
Qed.

Lemma dict_keys_set_new {V} (d : list (string * V)) k v :
  ~ In k (dict_keys d) -> dict_keys (dict_set d k v) = dict_keys d ++ [k].
Proof.
  induction d as [|[k' v'] d IH]; simpl; [reflexivity|].
  intros Hnin. destruct (String.eqb k' k) eqn:Hk.
  - apply String.eqb_eq in Hk. tauto.
  - simpl. f_equal. apply IH. tauto.
Qed.

(** ** The message *)

Lemma validate_row_cells field (row : list float) :
  validate_list field (validate_float field) (map PFloat row) = Ok row.
Proof.
  induction row as [|x row IH]; simpl; [reflexivity|].
  now rewrite IH.
Qed.

Lemma validate_tokens_value field (rows : list (list float)) :
  validate_tokens field (tokens_value rows) = Ok rows.
Proof.
  unfold validate_tokens, tokens_value.
  induction rows as [|row rows IH]; simpl; [reflexivity|].
  rewrite validate_row_cells. simpl. now rewrite IH.
Qed.

(** The rows of [tokens_value] are the rows given, cell by cell. *)
Lemma tokens_value_rows (rows : list (list float)) :
  exists rs, tokens_value rows = PList rs
    /\ List.length rs = List.length rows
    /\ forall (i : nat) (row : list float), rows !! i = Some row ->
         exists cells, rs !! i = Some (PList cells)
           /\ List.length cells = List.length row
           /\ forall (j : nat) (x : float), row !! j = Some x ->
                cells !! j = Some (PFloat x).
Proof.
  exists (map (fun row => PList (map PFloat row)) rows).
  split; [reflexivity|]. split; [apply length_map|].
  intros i row Hrow. exists (map PFloat row).
  split; [|split].
  - rewrite list_lookup_fmap. now rewrite Hrow.
  - apply length_map.
  - intros j x Hx. rewrite list_lookup_fmap. now rewrite Hx.
Qed.

(** C1. For every message, [get_miner_payload] returns the mapping with the
    one entry ["context"], holding the message's context; neither
    ["expected_completion"] nor ["compressed_tokens"] is a key of it,
    whatever those fields hold; and the message is left as it was. *)
Theorem get_miner_payload_only_context (self : TextCompressProtocol) :
  exists payload : pydict,
    get_miner_payload self = (self, Ok (PDict payload))
    /\ payload = [("context", PStr (context self))]
    /\ dict_keys payload = ["context"]
    /\ dict_get payload "expected_completion" = None
    /\ dict_get payload "compressed_tokens" = None.
Proof.
  exists [("context", PStr (context self))].
  repeat split; reflexivity.
Qed.

(** C2. For every message, [deserialize] returns a mapping with exactly the
    keys ["context"], ["compressed_tokens"], ["expected_completion"], each
    holding the message's field; the token rows are reproduced row by row and
    cell by cell; the message built again from that mapping is the same
    message, and serialises to the same mapping. *)
Theorem deserialize_wire_form (self : TextCompressProtocol) :
  exists wire : pydict,
    deserialize self = (self, Ok (PDict wire))
    /\ dict_keys wire = ["context"; "compressed_tokens"; "expected_completion"]
    /\ dict_get wire "context" = Some (PStr (context self))
    /\ dict_get wire "expected_completion" = Some (PStr (expected_completion self))
    /\ (exists rs,
          dict_get wire "compressed_tokens" = Some (PList rs)
          /\ List.length rs = List.length (compressed_tokens self)
          /\ forall (i : nat) (row : list float),
               compressed_tokens self !! i = Some row ->
               exists cells, rs !! i = Some (PList cells)
                 /\ List.length cells = List.length row
                 /\ forall (j : nat) (x : float), row !! j = Some x ->
                      cells !! j = Some (PFloat x))
    /\ from_wire (PDict wire) = Ok self
    /\ (exists self', from_wire (PDict wire) = Ok self'
          /\ deserialize self' = (self', Ok (PDict wire))).
Proof.
  destruct self as [c t e].
  eexists. split; [reflexivity|]. simpl.
  assert (Hrt : from_wire
            (PDict [("context", PStr c);
                    ("compressed_tokens", tokens_value t);
                    ("expected_completion", PStr e)])
          = Ok {| context := c; compressed_tokens := t;
                  expected_completion := e |}).
  { unfold from_wire, TextCompressProtocol_init, field_or.
    cbn -[validate_tokens tokens_value].
    now rewrite validate_tokens_value. }
  repeat split; try reflexivity.
  - destruct (tokens_value_rows t) as (rs & Heq & Hrs).
    exists rs. now rewrite Heq.
  - exact Hrt.
  - eexists. split; [exact Hrt|reflexivity].
Qed.

(** C7. After [hide_ground_truth] the expected completion is the empty
    string; the call raises nothing; and a second call leaves the message as
    the first left it. *)
Theorem hide_ground_truth_idempotent (self : TextCompressProtocol) :
  exists self' : TextCompressProtocol,
    hide_ground_truth self = (self', Ok PNone)
    /\ expected_completion self' = ""
    /\ hide_ground_truth self' = (self', Ok PNone).
Proof.
  eexists. split; [reflexivity|]. split; reflexivity.
Qed.

(** C8. [hide_ground_truth] leaves the context and the compressed tokens as
    they were. *)
Theorem hide_ground_truth_frame (self : TextCompressProtocol) :
  context (fst (hide_ground_truth self)) = context self
  /\ compressed_tokens (fst (hide_ground_truth self)) = compressed_tokens self.
Proof.
  split; reflexivity.
Qed.

(** ** Numbers *)

(** True division of integers rounds the exact quotient once, keeps the sign
    of a zero quotient, and refuses a zero divisor. *)
Example int_truediv_third : int_truediv 1 3 = Ok (1 / 3)%float.
Proof. vm_compute. reflexivity. Qed.

Example int_truediv_rounds_once :
  int_truediv (2 ^ 53 + 1) 1 = Ok 9007199254740992%float
  /\ int_truediv (10 ^ 400) (10 ^ 399) = Ok 10%float
  /\ int_truediv (10 ^ 400) 1 = Raise OverflowError.
Proof. vm_compute. repeat split. Qed.

Example int_truediv_zero :
  int_truediv 0 (-5) = Ok (-0)%float
  /\ int_truediv 0 0 = Raise ZeroDivisionError
  /\ py_truediv (PFloat 0.5) (PInt 0) = Raise ZeroDivisionError.
Proof. vm_compute. repeat split. Qed.

(** ** The harness *)

Lemma py_add_total (v : pyval) (x : float) :
  is_total v -> exists f, py_add v (PFloat x) = Ok (PFloat f).
Proof.
  intros [->|[f ->]]; eexists; reflexivity.
Qed.

(** *** Loops *)

Lemma for_each_ext {S X} (l : list X) (body1 body2 : X -> Py S unit) s :
  (forall x s', In x l -> body1 x s' = body2 x s') ->
  for_each l body1 s = for_each l body2 s.
Proof.
  revert s. induction l as [|x l IH]; intros s Hext; [reflexivity|].
  cbn [for_each]. unfold bind. rewrite Hext by now left.
  destruct (body2 x s) as [s' [[]|e]]; [|reflexivity].
  apply IH. intros y s'' Hy. apply Hext. now right.
Qed.

Lemma for_each_app {S X} (l1 l2 : list X) (body : X -> Py S unit) s :
  for_each (l1 ++ l2) body s
  = bind (for_each l1 body) (fun _ => for_each l2 body) s.
Proof.
  revert s. induction l1 as [|x l1 IH]; intros s; [reflexivity|].
  cbn [for_each app]. unfold bind in *.
  destruct (body x s) as [s' [[]|e]]; [|reflexivity].
  apply IH.
Qed.

Lemma for_each_map {S X Y} (f : X -> Y) (l : list X) (body : Y -> Py S unit) s :
  for_each (map f l) body s = for_each l (fun x => body (f x)) s.
Proof.
  revert s. induction l as [|x l IH]; intros s; [reflexivity|].
  cbn [for_each map]. unfold bind.
  destruct (body (f x) s) as [s' [[]|e]]; [|reflexivity].
  apply IH.
Qed.

Lemma for_each_flat_map {S X Y} (f : X -> list Y) (l : list X)
    (body : Y -> Py S unit) s :
  for_each (flat_map f l) body s = for_each l (fun x => for_each (f x) body) s.
Proof.
  revert s. induction l as [|x l IH]; intros s; [reflexivity|].
  cbn [for_each flat_map]. rewrite for_each_app. unfold bind.
  destruct (for_each (f x) body s) as [s' [[]|e]]; [|reflexivity].
  apply IH.
Qed.

(** *** The locals at the loop's entry *)

Lemma dict_keys_set_inv {V} (d : list (string * V)) k v x :
  In x (dict_keys (dict_set d k v)) -> x = k \/ In x (dict_keys d).
Proof.
  induction d as [|[k' v'] d IH]; cbn.
  - intros [<-|[]]. now left.
  - destruct (String.eqb k' k); cbn; intros [<-|Hin]; auto.
    destruct (IH Hin); auto.
Qed.

Lemma dict_set_NoDup {V} (d : list (string * V)) k v :
  List.NoDup (dict_keys d) -> List.NoDup (dict_keys (dict_set d k v)).
Proof.
  induction d as [|[k' v'] d IH]; cbn; intros Hnd.
  - constructor; [intros []|constructor].
  - destruct (String.eqb_spec k' k) as [->|Hne]; cbn; [assumption|].
    inversion Hnd as [|? ? Hnin Hnd']; subst. constructor; [|now apply IH].
    intros Hin. apply dict_keys_set_inv in Hin as [->|Hin]; [now apply Hne|].
    now apply Hnin.
Qed.

Lemma dict_get_None {V} (d : list (string * V)) k :
  ~ In k (dict_keys d) -> dict_get d k = None.
Proof.
  intros Hnin. destruct (dict_get d k) eqn:Hg; [|reflexivity].
  apply dict_get_Some_In in Hg. contradiction.
Qed.

(** [{task: 0 for task in tasks}], built onto a dict of zeros. *)
Lemma zeros_spec (tl : list string) (d : pydict) :
  List.NoDup (dict_keys d) ->
  (forall k v, dict_get d k = Some v -> v = PInt 0) ->
  let d' := fold_left (fun d task => dict_set d task (PInt 0)) tl d in
  List.NoDup (dict_keys d')
  /\ (forall k v, dict_get d' k = Some v -> v = PInt 0)
  /\ (forall k, In k (dict_keys d') <-> In k (dict_keys d) \/ In k tl).
Proof.
  revert d. induction tl as [|t tl IH]; intros d Hnd Hz; cbn.
  - repeat split; auto. now intros [H|[]].
  - destruct (IH (dict_set d t (PInt 0))) as (Hnd' & Hz' & Hk').
    + now apply dict_set_NoDup.
    + intros k v. destruct (String.eqb_spec t k) as [->|Hne].
      * rewrite dict_get_set_eq. congruence.
      * rewrite dict_get_set_ne by assumption. apply Hz.
    + repeat split; auto.
      * intros Hin. apply Hk' in Hin as [Hin|Hin]; [|right; now right].
        apply dict_keys_set_inv in Hin as [->|Hin]; [right|]; now left.
      * intros Hin. apply Hk'.
        destruct Hin as [Hin|[<-|Hin]]; [| |now right]; left.
        -- destruct (dict_get_In d k Hin) as [v Hv].
           destruct (String.eqb_spec t k) as [->|Hne].
           ++ eapply dict_get_Some_In. apply dict_get_set_eq.
           ++ eapply dict_get_Some_In. rewrite dict_get_set_ne; eauto.
        -- eapply dict_get_Some_In. apply dict_get_set_eq.
Qed.

Lemma initial_time_logs (tl : list string) :
  List.NoDup (dict_keys (time_logs (initial_locals tl)))
  /\ (forall k, In k (dict_keys (time_logs (initial_locals tl))) <-> In k tl)
  /\ (forall k, In k tl ->
        dict_get (time_logs (initial_locals tl)) k = Some (PInt 0)).
Proof.
  unfold initial_locals. cbn [time_logs].
  destruct (zeros_spec tl []) as (Hnd & Hz & Hk).
  - constructor.
  - discriminate.
  - cbv zeta in Hnd, Hz, Hk. split; [exact Hnd|]. split.
    + intros k. rewrite Hk. cbn. tauto.
    + intros k Hin.
      destruct (dict_get_In
                  (fold_left (fun d task => dict_set d task (PInt 0)) tl []) k)
        as [v Hv].
      * apply Hk. now right.
      * rewrite Hv. f_equal. eapply Hz, Hv.
Qed.

Lemma initial_totals_ok (tl : list string) :
  totals_ok (time_logs (initial_locals tl)) tl.
Proof.
  intros task Hin. exists (PInt 0). split; [|now left].
  now apply initial_time_logs.
Qed.

(** *** The averages *)

Lemma avg_time_comprehension_spec (items : pydict) :
  forall acc n avg,
  avg_time_comprehension items acc n = Ok avg ->
  List.NoDup (dict_keys items) ->
  forall k,
    (forall v, dict_get items k = Some v ->
       exists q, py_truediv v (PInt n) = Ok q /\ dict_get avg k = Some q)
    /\ (dict_get items k = None -> dict_get avg k = dict_get acc k).
Proof.
  induction items as [|[k0 v0] items IH]; intros acc n avg Hrun Hnd k.
  - cbn in *. injection Hrun as <-. split; [discriminate|reflexivity].
  - cbn [avg_time_comprehension] in Hrun.
    destruct (py_truediv v0 (PInt n)) as [q0|] eqn:Hq; [|discriminate].
    cbn [rbind] in Hrun. cbn in Hnd.
    inversion Hnd as [|? ? Hnin Hnd']; subst.
    destruct (IH _ _ _ Hrun Hnd' k) as [Hsome Hnone].
    cbn [dict_get]. destruct (String.eqb_spec k0 k) as [->|Hne].
    + split; [|discriminate]. intros v [= <-]. exists q0. split; [assumption|].
      rewrite Hnone by now apply dict_get_None. apply dict_get_set_eq.
    + split; [assumption|]. intros Hk. rewrite Hnone by assumption.
      now apply dict_get_set_ne.
Qed.

(** True division of an [int] by an [int] gives a [float]. *)
Lemma py_truediv_int (a b : Z) (q : pyval) :
  py_truediv (PInt a) (PInt b) = Ok q ->
  exists r, q = PFloat r /\ int_truediv a b = Ok r.
Proof.
  cbn. destruct (int_truediv a b) as [r|]; [|discriminate].
  intros [= <-]. eauto.
Qed.

(** Running a computation: unfold the monad, then reduce what is decided. *)
Ltac py_unfold :=
  cbv beta iota zeta delta
    [attempt try_except bind try_body lift get modify ret].
Ltac py_reduce := cbv beta iota zeta.

Section HarnessProperties.

Variable E : Env.
Variables (mc : Z) (mn : string).

(** The four ways a pass ends. *)

Lemma attempt_generation_failed st i task e :
  generated E mc mn i task = Raise e ->
  attempt E mc mn i task st = (set_error_count incr st, Ok tt).
Proof.
  unfold generated. intros H. py_unfold.
  destruct (env_generate E i mn task mc) as [protocol|e0];
    cbn [rbind] in H; py_reduce.
  - now rewrite H.
  - reflexivity.
Qed.

Lemma attempt_extraction_failed st i task data e total total' :
  generated E mc mn i task = Ok data ->
  extracted (make_item mc mn i task data) = Raise e ->
  dict_get (time_logs st) task = Some total ->
  py_add total (PFloat (elapsed E i task)) = Ok total' ->
  attempt E mc mn i task st
  = (set_error_count incr
       (set_time_logs (fun d => dict_set d task total') st), Ok tt).
Proof.
  unfold generated, extracted, elapsed. intros Hg Hx Ht Ha. py_unfold.
  destruct (env_generate E i mn task mc) as [protocol|e0];
    cbn [rbind] in Hg; [|discriminate].
  py_reduce. rewrite Hg. py_reduce.
  unfold py_getitem at 1. rewrite Ht. py_reduce. rewrite Ha. py_reduce.
  destruct (formatted_context (make_item mc mn i task data)) as [text|];
    cbn [rbind] in Hx; py_reduce; [|reflexivity].
  destruct (py_len text); [discriminate|reflexivity].
Qed.

Lemma attempt_tokenizer_failed st i task data text n_chars e total total' :
  generated E mc mn i task = Ok data ->
  extracted (make_item mc mn i task data) = Ok (text, n_chars) ->
  tokenizer E mn text = Raise e ->
  dict_get (time_logs st) task = Some total ->
  py_add total (PFloat (elapsed E i task)) = Ok total' ->
  attempt E mc mn i task st
  = (set_error_count incr
       (set_context_lengths (append n_chars)
          (set_time_logs (fun d => dict_set d task total') st)), Ok tt).
Proof.
  unfold generated, extracted, elapsed. intros Hg Hx Hk Ht Ha. py_unfold.
  destruct (env_generate E i mn task mc) as [protocol|e0];
    cbn [rbind] in Hg; [|discriminate].
  py_reduce. rewrite Hg. py_reduce.
  unfold py_getitem at 1. rewrite Ht. py_reduce. rewrite Ha. py_reduce.
  destruct (formatted_context (make_item mc mn i task data)) as [text0|];
    cbn [rbind] in Hx; [|discriminate].
  destruct (py_len text0) as [n|]; cbn [rbind] in Hx; [|discriminate].
  injection Hx as -> ->. py_reduce. now rewrite Hk.
Qed.

Lemma attempt_succeeded st i task data text n_chars tokens total total' :
  generated E mc mn i task = Ok data ->
  extracted (make_item mc mn i task data) = Ok (text, n_chars) ->
  tokenizer E mn text = Ok tokens ->
  dict_get (time_logs st) task = Some total ->
  py_add total (PFloat (elapsed E i task)) = Ok total' ->
  attempt E mc mn i task st
  = (set_pbar incr
       (set_dataset_items (append (make_item mc mn i task data))
          (set_token_counts (append (Z.of_nat (List.length tokens)))
             (set_context_lengths (append n_chars)
                (set_time_logs (fun d => dict_set d task total') st)))),
     Ok tt).
Proof.
  unfold generated, extracted, elapsed. intros Hg Hx Hk Ht Ha. py_unfold.
  destruct (env_generate E i mn task mc) as [protocol|e0];
    cbn [rbind] in Hg; [|discriminate].
  py_reduce. rewrite Hg. py_reduce.
  unfold py_getitem at 1. rewrite Ht. py_reduce. rewrite Ha. py_reduce.
  destruct (formatted_context (make_item mc mn i task data)) as [text0|];
    cbn [rbind] in Hx; [|discriminate].
  destruct (py_len text0) as [n|]; cbn [rbind] in Hx; [|discriminate].
  injection Hx as -> ->. py_reduce. now rewrite Hk.
Qed.

(** Whatever happens in a pass, it raises nothing, counts one error
    exactly when it appends no item, adds the elapsed time exactly when the
    generation gave a payload, and writes no file. *)
Lemma attempt_step st i task total :
  dict_get (time_logs st) task = Some total ->
  is_total total ->
  exists st' total',
    attempt E mc mn i task st = (st', Ok tt)
    /\ error_count st'
       = error_count st + (if fails E mc mn (i, task) then 1 else 0)
    /\ dataset_items st'
       = dataset_items st ++ appended (attempt_item E mc mn i task)
    /\ py_add total (PFloat (elapsed E i task)) = Ok total'
    /\ is_total total'
    /\ time_logs st'
       = (if is_ok (generated E mc mn i task)
          then dict_set (time_logs st) task total'
          else time_logs st)
    /\ synthetic_samples_json st' = synthetic_samples_json st.
Proof.
  intros Ht Htot.
  destruct (py_add_total total (elapsed E i task) Htot) as [f Ha].
  unfold fails, succeeds, attempt_item. cbn [fst snd].
  destruct (generated E mc mn i task) as [data|e] eqn:Hg; cbn [rbind].
  - destruct (extracted (make_item mc mn i task data)) as [[text n]|e] eqn:Hx;
      cbn [rbind fst].
    + destruct (tokenizer E mn text) as [tokens|e] eqn:Hk; cbn [rbind].
      * eexists _, _. split.
        { eapply attempt_succeeded; eauto. }
        cbn. repeat split; eauto; try lia. right; eauto.
      * eexists _, _. split.
        { eapply attempt_tokenizer_failed; eauto. }
        cbn. rewrite app_nil_r. repeat split; eauto. right; eauto.
    + eexists _, _. split.
      { eapply attempt_extraction_failed; eauto. }
      cbn. rewrite app_nil_r. repeat split; eauto. right; eauto.
  - eexists _, _. split.
    { eapply attempt_generation_failed; eauto. }
    cbn. rewrite app_nil_r. repeat split; eauto. right; eauto.
Qed.

(** The two nested loops go through [attempts] in order. *)
Lemma loops_attempts tl n st :
  loops E tl n mc mn st
  = for_each (attempts tl n)
      (fun a => attempt E mc mn (fst a) (snd a)) st.
Proof.
  unfold loops, attempts. rewrite for_each_flat_map.
  apply for_each_ext. intros i s' _. now rewrite for_each_map.
Qed.

Lemma totals_ok_set d tl task total :
  totals_ok d tl -> is_total total -> totals_ok (dict_set d task total) tl.
Proof.
  intros Hok Htot t Hin. destruct (String.eqb_spec task t) as [->|Hne].
  - exists total. split; [apply dict_get_set_eq|assumption].
  - rewrite dict_get_set_ne by assumption. now apply Hok.
Qed.

(** The passes over a list of pairs: none raises; the errors counted are
    the failing pairs; the items appended are those of the others, in
    order; each task's total is what [accumulated_time] says; no file is
    written. *)
Lemma for_each_attempt tl l st :
  totals_ok (time_logs st) tl ->
  (forall a, In a l -> In (snd a) tl) ->
  exists st',
    for_each l (fun a => attempt E mc mn (fst a) (snd a)) st = (st', Ok tt)
    /\ error_count st'
       = error_count st
         + Z.of_nat (List.length (List.filter (fails E mc mn) l))
    /\ dataset_items st'
       = dataset_items st
         ++ omap (fun a => ok_val (attempt_item E mc mn (fst a) (snd a))) l
    /\ totals_ok (time_logs st') tl
    /\ dict_keys (time_logs st') = dict_keys (time_logs st)
    /\ (forall task total,
          In task tl -> dict_get (time_logs st) task = Some total ->
          exists v, accumulated_time E mc mn l task total = Ok v
                    /\ dict_get (time_logs st') task = Some v)
    /\ synthetic_samples_json st' = synthetic_samples_json st.
Proof.
  revert st. induction l as [|[i task] l IH]; intros st Hok Hin.
  - exists st. cbn. rewrite app_nil_r.
    repeat split; auto; try lia. intros task total _ Ht. eauto.
  - assert (Htask : In task tl) by (apply (Hin (i, task)); now left).
    destruct (Hok task Htask) as (total & Ht & Htot).
    destruct (attempt_step st i task total Ht Htot)
      as (st1 & total' & Hrun & Herr & Hitems & Hadd & Htot' & Htime & Hfile).
    assert (Hok1 : totals_ok (time_logs st1) tl).
    { rewrite Htime. destruct (is_ok _); [|assumption].
      now apply totals_ok_set. }
    destruct (IH st1 Hok1) as (st' & Hrun' & Herr' & Hitems' & Hok' & Hkeys'
                                & Hacc' & Hfile').
    { intros a Ha. apply Hin. now right. }
    exists st'. cbn [for_each fst snd]. unfold bind. rewrite Hrun.
    split; [exact Hrun'|]. split; [|split; [|split; [|split; [|split]]]].
    + rewrite Herr', Herr. cbn [List.filter].
      destruct (fails E mc mn (i, task)); cbn [List.length]; lia.
    + rewrite Hitems', Hitems. cbn [omap list_omap fst snd].
      destruct (attempt_item E mc mn i task); cbn; now rewrite <- app_assoc.
    + exact Hok'.
    + rewrite Hkeys', Htime. destruct (is_ok _); [|reflexivity].
      apply dict_keys_set_In. eapply dict_get_Some_In; eauto.
    + intros task0 total0 Hin0 Ht0. cbn [accumulated_time].
      destruct (String.eqb_spec task task0) as [<-|Hne]; cbn [andb].
      * rewrite Ht in Ht0. injection Ht0 as <-.
        destruct (is_ok (generated E mc mn i task)).
        -- rewrite Hadd. cbn [rbind]. apply Hacc'; [assumption|].
           rewrite Htime. apply dict_get_set_eq.
        -- apply Hacc'; [assumption|]. now rewrite Htime.
      * apply Hacc'; [assumption|]. rewrite Htime.
        destruct (is_ok _); [|assumption].
        now rewrite dict_get_set_ne.
    + now rewrite Hfile'.
Qed.

End HarnessProperties.

(** *** A whole run *)

Lemma attempts_snd_In tl n a : In a (attempts tl n) -> In (snd a) tl.
Proof.
  unfold attempts. rewrite in_flat_map. intros (i & _ & Hin).
  apply in_map_iff in Hin as (task & <- & Hin). exact Hin.
Qed.

Lemma attempts_length tl n :
  0 <= n ->
  Z.of_nat (List.length (attempts tl n)) = n * Z.of_nat (List.length tl).
Proof.
  intros Hn. unfold attempts, range, seqZ.
  assert (H : forall l : list Z,
             List.length (flat_map (fun i => map (fun task => (i, task)) tl) l)
             = (List.length l * List.length tl)%nat).
  { induction l as [|i l IH]; [reflexivity|].
    cbn [flat_map]. rewrite length_app, length_map, IH. reflexivity. }
  rewrite H, length_fmap, length_seq. lia.
Qed.

Section Run.

Variable E : Env.
Variable tl : list string.
Variables (n mc : Z) (mn : string).

(** What a run that returns has gone through: the loops over [attempts],
    the averages, the error rate, the file, the summary. *)
Lemma benchmark_challenger_on_returns st' summary :
  benchmark_challenger_on E tl n mc mn (initial_locals tl) = (st', Ok summary) ->
  exists st1 avg rate,
    loops E tl n mc mn (initial_locals tl) = (st1, Ok tt)
    /\ error_count st1 = failures E tl n mc mn
    /\ dataset_items st1 = generated_items E tl n mc mn
    /\ (forall task, In task tl ->
          exists total,
            accumulated_time E mc mn (attempts tl n) task (PInt 0) = Ok total
            /\ dict_get (time_logs st1) task = Some total)
    /\ List.NoDup (dict_keys (time_logs st1))
    /\ (forall k, In k (dict_keys (time_logs st1)) <-> In k tl)
    /\ avg_time_comprehension (time_logs st1) [] n = Ok avg
    /\ int_truediv (error_count st1) (n * Z.of_nat (List.length tl)) = Ok rate
    /\ st' = set_synthetic_samples_json (Some (dataset_items st1)) st1
    /\ summary
       = PDict [("error_count", PInt (error_count st1));
                ("error_rate", PFloat rate);
                ("avg_time_per_task", PDict avg);
                ("context_length_mean", PFloat (env_mean E (context_lengths st1)));
                ("context_length_std", PFloat (env_std E (context_lengths st1)));
                ("token_count_mean", PFloat (env_mean E (token_counts st1)));
                ("token_count_std", PFloat (env_std E (token_counts st1)))].
Proof.
  destruct (for_each_attempt E mc mn tl (attempts tl n) (initial_locals tl))
    as (st1 & Hrun & Herr & Hitems & Hok & Hkeys & Hacc & Hfile).
  { apply initial_totals_ok. }
  { apply attempts_snd_In. }
  destruct (initial_time_logs tl) as (Hnd & Hk & Hz).
  rewrite <- loops_attempts in Hrun.
  unfold benchmark_challenger_on, bind, lift, get, modify, ret.
  rewrite Hrun.
  destruct (avg_time_comprehension (time_logs st1) [] n) as [avg|] eqn:Havg;
    [|discriminate].
  destruct (py_truediv (PInt (error_count st1))
              (PInt (n * Z.of_nat (List.length tl)))) as [q|] eqn:Hq;
    [|discriminate].
  apply py_truediv_int in Hq as (rate & -> & Hrate).
  intros [= <- <-]. exists st1, avg, rate.
  split; [reflexivity|]. split; [exact Herr|]. split; [exact Hitems|].
  split; [|split; [|split; [|repeat split; assumption]]].
  - intros task Hin. apply Hacc; [assumption|]. now apply Hz.
  - now rewrite Hkeys.
  - intros k. rewrite Hkeys. apply Hk.
Qed.

End Run.

(** *** Items and failures *)

Lemma attempt_item_fields E mc mn i task item :
  attempt_item E mc mn i task = Ok item ->
  py_getitem item "id" = Ok (PInt i) /\ py_getitem item "task" = Ok (PStr task).
Proof.
  unfold attempt_item.
  destruct (generated E mc mn i task) as [data|]; [|discriminate].
  cbn [rbind].
  destruct (extracted (make_item mc mn i task data)) as [m|]; [|discriminate].
  cbn [rbind]. destruct (tokenizer E mn (fst m)); [|discriminate].
  intros [= <-]. split; reflexivity.
Qed.

(** The items are those of the pairs that succeed, one each, in order. *)
Lemma generated_items_keys E mc mn (l : list (Z * string)) :
  map (fun item => (py_getitem item "id", py_getitem item "task"))
      (omap (fun a => ok_val (attempt_item E mc mn (fst a) (snd a))) l)
  = map (fun a => (Ok (PInt (fst a)), Ok (PStr (snd a))))
        (List.filter (succeeds E mc mn) l).
Proof.
  induction l as [|[i task] l IH]; [reflexivity|].
  cbn [omap list_omap List.filter fst snd]. unfold succeeds at 1. cbn [fst snd].
  destruct (attempt_item E mc mn i task) as [item|] eqn:Hitem; cbn.
  - destruct (attempt_item_fields _ _ _ _ _ _ Hitem) as [-> ->].
    f_equal. exact IH.
  - exact IH.
Qed.

Lemma items_plus_failures E mc mn (l : list (Z * string)) :
  (List.length
     (omap (fun a => ok_val (attempt_item E mc mn (fst a) (snd a))) l)
   + List.length (List.filter (fails E mc mn) l))%nat
  = List.length l.
Proof.
  induction l as [|[i task] l IH]; [reflexivity|].
  cbn [omap list_omap List.filter]. unfold fails at 1, succeeds. cbn [fst snd].
  destruct (attempt_item E mc mn i task); cbn; lia.
Qed.

Lemma zeros_head (tl : list string) (t : string) (d : pydict) :
  exists d',
    fold_left (fun d task => dict_set d task (PInt 0)) tl ((t, PInt 0) :: d)
    = (t, PInt 0) :: d'.
Proof.
  revert d. induction tl as [|t0 tl IH]; intros d; cbn; [eauto|].
  destruct (String.eqb t t0); apply IH.
Qed.

(** ** The claims on the harness *)

Section Claims.

Variable E : Env.
Variable tl : list string.
Variables (n mc : Z) (mn : string).

(** C3, as amended.  With [n_iterations = 0] and a task list that is not
    empty, no pass is made, the dict comprehension that averages the
    per-task times raises [ZeroDivisionError], and the function leaves by
    that exception: it returns no summary and writes no file. *)
Theorem zero_iterations_raise :
  tl <> [] ->
  loops E tl 0 mc mn (initial_locals tl) = (initial_locals tl, Ok tt)
  /\ avg_time_comprehension (time_logs (initial_locals tl)) [] 0
     = Raise ZeroDivisionError
  /\ benchmark_challenger_on E tl 0 mc mn (initial_locals tl)
     = (initial_locals tl, Raise ZeroDivisionError).
Proof.
  intros Hne. destruct tl as [|t tl']; [contradiction|].
  assert (Havg : avg_time_comprehension
                   (time_logs (initial_locals (t :: tl'))) [] 0
                 = Raise ZeroDivisionError).
  { unfold initial_locals. cbn [time_logs fold_left dict_set].
    destruct (zeros_head tl' t []) as [d' ->]. reflexivity. }
  split; [reflexivity|]. split; [exact Havg|].
  unfold benchmark_challenger_on, bind, lift, get.
  change (loops E (t :: tl') 0 mc mn (initial_locals (t :: tl')))
    with (initial_locals (t :: tl'), Ok tt).
  cbv beta iota. now rewrite Havg.
Qed.

(** C4, as amended.  In a pass whose generation fails, the error counter
    goes up by one and nothing else changes.  In a pass whose generation
    gives a payload and whose extraction fails, the elapsed time has been
    added to the task's running total by then, and the error counter goes
    up by one.  Either way no context length, no token count and no item
    is recorded, no exception leaves the pass, and the loop goes on with
    the next task. *)
Theorem failed_attempt_effect (st : locals) (i : Z) (task : string)
    (total : pyval) :
  dict_get (time_logs st) task = Some total ->
  is_total total ->
  (forall e, generated E mc mn i task = Raise e ->
     attempt E mc mn i task st = (set_error_count incr st, Ok tt)
     /\ forall rest,
          for_each (task :: rest) (attempt E mc mn i) st
          = for_each rest (attempt E mc mn i) (set_error_count incr st))
  /\ (forall data e,
        generated E mc mn i task = Ok data ->
        extracted (make_item mc mn i task data) = Raise e ->
        exists total' st',
          py_add total (PFloat (elapsed E i task)) = Ok total'
          /\ st' = set_error_count incr
                     (set_time_logs (fun d => dict_set d task total') st)
          /\ attempt E mc mn i task st = (st', Ok tt)
          /\ context_lengths st' = context_lengths st
          /\ token_counts st' = token_counts st
          /\ dataset_items st' = dataset_items st
          /\ forall rest,
               for_each (task :: rest) (attempt E mc mn i) st
               = for_each rest (attempt E mc mn i) st').
Proof.
  intros Ht Htot. split.
  - intros e Hg.
    pose proof (attempt_generation_failed E mc mn st i task e Hg) as Hrun.
    split; [exact Hrun|]. intros rest. cbn [for_each]. unfold bind.
    now rewrite Hrun.
  - intros data e Hg Hx.
    destruct (py_add_total total (elapsed E i task) Htot) as [f Ha].
    pose proof (attempt_extraction_failed E mc mn st i task data e total _
                  Hg Hx Ht Ha) as Hrun.
    eexists _, _. split; [exact Ha|]. split; [reflexivity|].
    split; [exact Hrun|]. repeat split.
    intros rest. cbn [for_each]. unfold bind. now rewrite Hrun.
Qed.

(** C5.  When the run returns, the summary's [error_count] is the number
    of passes in which something raised, and its [error_rate] is that
    number divided, as Python divides two [int]s, by
    [n_iterations * len(tasks)]. *)
Theorem error_count_and_rate (st' : locals) (summary : pyval) :
  benchmark_challenger_on E tl n mc mn (initial_locals tl)
  = (st', Ok summary) ->
  py_getitem summary "error_count" = Ok (PInt (failures E tl n mc mn))
  /\ exists rate,
       py_getitem summary "error_rate" = Ok (PFloat rate)
       /\ int_truediv (failures E tl n mc mn) (n * Z.of_nat (List.length tl))
          = Ok rate.
Proof.
  intros Hrun.
  destruct (benchmark_challenger_on_returns E tl n mc mn st' summary Hrun)
    as (st1 & avg & rate & _ & Herr & _ & _ & _ & _ & _ & Hrate & _ & ->).
  rewrite <- Herr. split; [reflexivity|]. exists rate. now split.
Qed.

(** C6.  When the run returns, the file holds the items of the passes in
    which nothing raised, one each and none for the others, in the order
    the two loops requested them; the [id] of each is the iteration index
    of its pass and its [task] the task. *)
Theorem persisted_items_in_request_order (st' : locals) (summary : pyval) :
  benchmark_challenger_on E tl n mc mn (initial_locals tl)
  = (st', Ok summary) ->
  exists items,
    synthetic_samples_json st' = Some items
    /\ items = generated_items E tl n mc mn
    /\ map (fun item => (py_getitem item "id", py_getitem item "task")) items
       = map (fun a => (Ok (PInt (fst a)), Ok (PStr (snd a))))
             (List.filter (succeeds E mc mn) (attempts tl n)).
Proof.
  intros Hrun.
  destruct (benchmark_challenger_on_returns E tl n mc mn st' summary Hrun)
    as (st1 & avg & rate & _ & _ & Hitems & _ & _ & _ & _ & _ & -> & _).
  exists (generated_items E tl n mc mn). cbn. rewrite Hitems.
  repeat split. apply generated_items_keys.
Qed.

(** C9.  When the run returns, the summary has the seven fields
    [error_count], [error_rate], [avg_time_per_task],
    [context_length_mean], [context_length_std], [token_count_mean],
    [token_count_std] and no other; [avg_time_per_task] has the tasks of
    the task list for keys, and holds for each the time accumulated for it
    over the run, divided by [n_iterations]. *)
Theorem summary_fields (st' : locals) (summary : pyval) :
  benchmark_challenger_on E tl n mc mn (initial_locals tl)
  = (st', Ok summary) ->
  exists fields avg,
    summary = PDict fields
    /\ dict_keys fields
       = ["error_count"; "error_rate"; "avg_time_per_task";
          "context_length_mean"; "context_length_std";
          "token_count_mean"; "token_count_std"]
    /\ dict_get fields "avg_time_per_task" = Some (PDict avg)
    /\ (forall task, In task (dict_keys avg) <-> In task tl)
    /\ (forall task, In task tl ->
          exists total quotient,
            accumulated_time E mc mn (attempts tl n) task (PInt 0) = Ok total
            /\ py_truediv total (PInt n) = Ok quotient
            /\ dict_get avg task = Some quotient).
Proof.
  intros Hrun.
  destruct (benchmark_challenger_on_returns E tl n mc mn st' summary Hrun)
    as (st1 & avg & rate & _ & _ & _ & Hacc & Hnd & Hkeys & Havg & _ & _ & ->).
  pose proof (avg_time_comprehension_spec _ _ _ _ Havg Hnd) as Hspec.
  eexists _, avg. split; [reflexivity|]. split; [reflexivity|].
  split; [reflexivity|]. split.
  - intros task. split.
    + intros Hin. apply Hkeys.
      destruct (dict_get (time_logs st1) task) as [v|] eqn:Hv.
      * eapply dict_get_Some_In, Hv.
      * apply dict_get_In in Hin as [q Hq].
        destruct (Hspec task) as [_ Hnone]. rewrite Hnone in Hq by assumption.
        discriminate.
    + intros Hin. destruct (Hacc task Hin) as (total & _ & Ht).
      destruct (Hspec task) as [Hsome _].
      destruct (Hsome total Ht) as (q & _ & Hq).
      eapply dict_get_Some_In, Hq.
  - intros task Hin. destruct (Hacc task Hin) as (total & Htotal & Ht).
    destruct (Hspec task) as [Hsome _].
    destruct (Hsome total Ht) as (q & Hdiv & Hq).
    exists total, q. auto.
Qed.

(** C10.  When the run returns, for [n_iterations >= 0], the number of
    items in the collection, which is the one written to the file, plus
    the error count is [n_iterations * len(tasks)]; and a pass either
    appends one item and counts no error, or counts one error and appends
    no item. *)
Theorem items_plus_errors (st' : locals) (summary : pyval) :
  benchmark_challenger_on E tl n mc mn (initial_locals tl)
  = (st', Ok summary) ->
  0 <= n ->
  (exists items errors,
     dataset_items st' = items
     /\ synthetic_samples_json st' = Some items
     /\ py_getitem summary "error_count" = Ok (PInt errors)
     /\ Z.of_nat (List.length items) + errors
        = n * Z.of_nat (List.length tl))
  /\ (forall st i task total,
        dict_get (time_logs st) task = Some total ->
        is_total total ->
        exists st1,
          attempt E mc mn i task st = (st1, Ok tt)
          /\ ((exists item,
                 dataset_items st1 = dataset_items st ++ [item]
                 /\ error_count st1 = error_count st)
              \/ (dataset_items st1 = dataset_items st
                  /\ error_count st1 = error_count st + 1))).
Proof.
  intros Hrun Hn. split.
  - destruct (benchmark_challenger_on_returns E tl n mc mn st' summary Hrun)
      as (st1 & avg & rate & _ & Herr & Hitems & _ & _ & _ & _ & _ & -> & ->).
    exists (dataset_items st1), (error_count st1).
    repeat split. rewrite Hitems, Herr. unfold generated_items, failures.
    rewrite <- (attempts_length tl n Hn).
    rewrite <- (items_plus_failures E mc mn (attempts tl n)). lia.
  - intros st i task total Ht Htot.
    destruct (attempt_step E mc mn st i task total Ht Htot)
      as (st1 & total' & Hstep & Herr & Hitems & _).
    exists st1. split; [exact Hstep|].
    unfold fails, succeeds in Herr. cbn [fst snd] in Herr.
    destruct (attempt_item E mc mn i task) as [item|]; cbn in Herr, Hitems.
    + left. exists item. split; [assumption|lia].
    + right. rewrite app_nil_r in Hitems. split; [assumption|lia].
Qed.

End Claims.

(** ** The sample run *)

Lemma zero_iterations_raise_sample :
  tasks <> []
  /\ loops sample_env tasks 0 1000 "universal" (initial_locals tasks)
     = (initial_locals tasks, Ok tt)
  /\ avg_time_comprehension (time_logs (initial_locals tasks)) [] 0
     = Raise ZeroDivisionError
  /\ benchmark_challenger_on sample_env tasks 0 1000 "universal"
       (initial_locals tasks)
     = (initial_locals tasks, Raise ZeroDivisionError).
Proof.
  split; [discriminate|].
  apply (zero_iterations_raise sample_env tasks 1000 "universal").
  discriminate.
Defined.

(** With zero iterations the function of the source raises: there is no
    summary. *)
Lemma zero_iterations_no_summary :
  benchmark_challenger sample_env 0 1000 "universal"
  = (sample_locals, Raise ZeroDivisionError).
Proof. vm_compute. reflexivity. Qed.

(** Iteration 3 of the sample environment: the generation gives a payload,
    the extraction raises, and the task's total has gone from [0] to the
    quarter of a second the generation took. *)
Lemma extraction_failure_adds_time :
  generated sample_env 1000 "universal" 3 "question_answering"
  = Ok (sample_payload 3)
  /\ extracted (make_item 1000 "universal" 3 "question_answering"
                  (sample_payload 3))
     = Raise (KeyError "task_data")
  /\ time_logs sample_locals = [("question_answering", PInt 0)]
  /\ attempt sample_env 1000 "universal" 3 "question_answering" sample_locals
     = (set_error_count incr
          (set_time_logs (fun _ => [("question_answering", PFloat 0.25)])
             sample_locals), Ok tt).
Proof. vm_compute. repeat split. Qed.

Lemma failed_attempt_effect_sample :
  dict_get (time_logs sample_locals) "question_answering" = Some (PInt 0)
  /\ is_total (PInt 0)
  /\ (forall e,
        generated sample_env 1000 "universal" 3 "question_answering" = Raise e ->
        attempt sample_env 1000 "universal" 3 "question_answering" sample_locals
        = (set_error_count incr sample_locals, Ok tt)
        /\ forall rest,
             for_each ("question_answering" :: rest)
               (attempt sample_env 1000 "universal" 3) sample_locals
             = for_each rest (attempt sample_env 1000 "universal" 3)
                 (set_error_count incr sample_locals))
  /\ (forall data e,
        generated sample_env 1000 "universal" 3 "question_answering" = Ok data ->
        extracted (make_item 1000 "universal" 3 "question_answering" data)
        = Raise e ->
        exists total' st',
          py_add (PInt 0)
            (PFloat (elapsed sample_env 3 "question_answering")) = Ok total'
          /\ st' = set_error_count incr
                     (set_time_logs
                        (fun d => dict_set d "question_answering" total')
                        sample_locals)
          /\ attempt sample_env 1000 "universal" 3 "question_answering"
               sample_locals = (st', Ok tt)
          /\ context_lengths st' = context_lengths sample_locals
          /\ token_counts st' = token_counts sample_locals
          /\ dataset_items st' = dataset_items sample_locals
          /\ forall rest,
               for_each ("question_answering" :: rest)
                 (attempt sample_env 1000 "universal" 3) sample_locals
               = for_each rest (attempt sample_env 1000 "universal" 3) st').
Proof.
  split; [reflexivity|]. split; [left; reflexivity|].
  apply (failed_attempt_effect sample_env 1000 "universal" sample_locals 3
           "question_answering" (PInt 0)).
  - reflexivity.
  - left. reflexivity.
Defined.

Lemma sample_run_returns :
  benchmark_challenger_on sample_env tasks 5 1000 "universal"
    (initial_locals tasks)
  = (sample_final, Ok sample_summary).
Proof. vm_compute. reflexivity. Qed.

Lemma error_count_and_rate_sample :
  benchmark_challenger_on sample_env tasks 5 1000 "universal"
    (initial_locals tasks)
  = (sample_final, Ok sample_summary)
  /\ py_getitem sample_summary "error_count"
     = Ok (PInt (failures sample_env tasks 5 1000 "universal"))
  /\ exists rate,
       py_getitem sample_summary "error_rate" = Ok (PFloat rate)
       /\ int_truediv (failures sample_env tasks 5 1000 "universal")
            (5 * Z.of_nat (List.length tasks))
          = Ok rate.
Proof.
  split; [vm_compute; reflexivity|].
  apply (error_count_and_rate sample_env tasks 5 1000 "universal" sample_final).
  vm_compute. reflexivity.
Defined.

Lemma persisted_items_in_request_order_sample :
  benchmark_challenger_on sample_env tasks 5 1000 "universal"
    (initial_locals tasks)
  = (sample_final, Ok sample_summary)
  /\ exists items,
       synthetic_samples_json sample_final = Some items
       /\ items = generated_items sample_env tasks 5 1000 "universal"
       /\ map (fun item => (py_getitem item "id", py_getitem item "task")) items
          = map (fun a => (Ok (PInt (fst a)), Ok (PStr (snd a))))
                (List.filter (succeeds sample_env 1000 "universal")
                   (attempts tasks 5)).
Proof.
  split; [vm_compute; reflexivity|].
  apply (persisted_items_in_request_order sample_env tasks 5 1000 "universal"
           sample_final sample_summary).
  vm_compute. reflexivity.
Defined.

Lemma summary_fields_sample :
  benchmark_challenger_on sample_env tasks 5 1000 "universal"
    (initial_locals tasks)
  = (sample_final, Ok sample_summary)
  /\ exists fields avg,
       sample_summary = PDict fields
       /\ dict_keys fields
          = ["error_count"; "error_rate"; "avg_time_per_task";
             "context_length_mean"; "context_length_std";
             "token_count_mean"; "token_count_std"]
       /\ dict_get fields "avg_time_per_task" = Some (PDict avg)
       /\ (forall task, In task (dict_keys avg) <-> In task tasks)
       /\ (forall task, In task tasks ->
             exists total quotient,
               accumulated_time sample_env 1000 "universal" (attempts tasks 5)
                 task (PInt 0) = Ok total
               /\ py_truediv total (PInt 5) = Ok quotient
               /\ dict_get avg task = Some quotient).
Proof.
  split; [vm_compute; reflexivity|].
  apply (summary_fields sample_env tasks 5 1000 "universal" sample_final
           sample_summary).
  vm_compute. reflexivity.
Defined.

Lemma items_plus_errors_sample :
  benchmark_challenger_on sample_env tasks 5 1000 "universal"
    (initial_locals tasks)
  = (sample_final, Ok sample_summary)
  /\ 0 <= 5
  /\ (exists items errors,
        dataset_items sample_final = items
        /\ synthetic_samples_json sample_final = Some items
        /\ py_getitem sample_summary "error_count" = Ok (PInt errors)
        /\ Z.of_nat (List.length items) + errors
           = 5 * Z.of_nat (List.length tasks))
  /\ (forall st i task total,
        dict_get (time_logs st) task = Some total ->
        is_total total ->
        exists st1,
          attempt sample_env 1000 "universal" i task st = (st1, Ok tt)
          /\ ((exists item,
                 dataset_items st1 = dataset_items st ++ [item]
                 /\ error_count st1 = error_count st)
              \/ (dataset_items st1 = dataset_items st
                  /\ error_count st1 = error_count st + 1))).
Proof.
  split; [vm_compute; reflexivity|]. split; [lia|].
  apply (items_plus_errors sample_env tasks 5 1000 "universal" sample_final
           sample_summary).
  - vm_compute. reflexivity.
  - lia.
Defined.

(** The scenario of three iterations, the second failing: one error, an
    error rate of a third, a mean length of 200, the items 0 and 2. *)
Example three_iterations_one_failure :
  exists st' summary,
    benchmark_challenger sample_env 3 1000 "universal" = (st', Ok summary)
    /\ py_getitem summary "error_count" = Ok (PInt 1)
    /\ py_getitem summary "error_rate" = Ok (PFloat (1 / 3)%float)
    /\ py_getitem summary "context_length_mean" = Ok (PFloat 200)
    /\ option_map (map (fun item => py_getitem item "id"))
         (synthetic_samples_json st')
       = Some [Ok (PInt 0); Ok (PInt 2)].
Proof. eexists _, _. vm_compute. repeat split. Qed.

(** With the one task of the source, the requests go by iteration. *)
Lemma attempts_tasks (n : Z) :
  attempts tasks n = map (fun i => (i, "question_answering")) (range n).
Proof.
  unfold attempts, tasks. induction (range n) as [|i l IH]; [reflexivity|].
  cbn [flat_map map app]. now f_equal.
Qed.

(** * Further properties *)

(** ** The message *)

Lemma from_wire_deserialize (self : TextCompressProtocol) :
  exists wire, deserialize self = (self, Ok wire) /\ from_wire wire = Ok self.
Proof.
  destruct self as [c t e]. eexists. split; [reflexivity|].
  unfold from_wire, TextCompressProtocol_init, field_or.
  cbn -[validate_tokens tokens_value].
  now rewrite validate_tokens_value.
Qed.

(** X1. Hiding the ground truth does not change what the miner is given:
    [get_miner_payload] after [hide_ground_truth] returns the payload it
    returns before, and neither call raises. *)
Theorem hide_ground_truth_keeps_payload (self : TextCompressProtocol) :
  exists hidden payload,
    (hide_ground_truth ;;; get_miner_payload) self = (hidden, Ok payload)
    /\ get_miner_payload self = (self, Ok payload)
    /\ hide_ground_truth self = (hidden, Ok PNone).
Proof.
  eexists _, _. repeat split.
Qed.

(** X2. The wire form of a message whose ground truth was hidden is the wire
    form it had before with ["expected_completion"] set to the empty string:
    the context and the compressed tokens go out as they were. *)
Theorem deserialize_after_hide (self : TextCompressProtocol) :
  exists hidden wire,
    deserialize self = (self, Ok (PDict wire))
    /\ (hide_ground_truth ;;; deserialize) self
       = (hidden, Ok (PDict (dict_set wire "expected_completion" (PStr ""))))
    /\ dict_get (dict_set wire "expected_completion" (PStr "")) "context"
       = Some (PStr (context self))
    /\ dict_get (dict_set wire "expected_completion" (PStr ""))
         "compressed_tokens"
       = Some (tokens_value (compressed_tokens self)).
Proof.
  eexists _, _. repeat split.
Qed.

(** X3. [deserialize] loses nothing: two messages with the same wire form
    are the same message. *)
Theorem deserialize_injective (m1 m2 : TextCompressProtocol) :
  snd (deserialize m1) = snd (deserialize m2) -> m1 = m2.
Proof.
  intros Heq.
  destruct (from_wire_deserialize m1) as (w1 & Hd1 & Hw1).
  destruct (from_wire_deserialize m2) as (w2 & Hd2 & Hw2).
  rewrite Hd1, Hd2 in Heq. cbn in Heq. injection Heq as <-.
  congruence.
Qed.

Lemma deserialize_injective_sample :
  snd (deserialize
         {| context := "text"; compressed_tokens := [[0.5%float]; []];
            expected_completion := "answer" |})
  = snd (deserialize
           {| context := "text"; compressed_tokens := [[0.5%float]; []];
              expected_completion := "answer" |})
  /\ {| context := "text"; compressed_tokens := [[0.5%float]; []];
        expected_completion := "answer" |}
     = {| context := "text"; compressed_tokens := [[0.5%float]; []];
          expected_completion := "answer" |}.
Proof.
  split; [reflexivity|].
  apply (deserialize_injective
           {| context := "text"; compressed_tokens := [[0.5%float]; []];
              expected_completion := "answer" |}
           {| context := "text"; compressed_tokens := [[0.5%float]; []];
              expected_completion := "answer" |}).
  reflexivity.
Defined.

(** ** The samples and the progress bar *)

Section SampleProperties.

Variable E : Env.
Variables (mc : Z) (mn : string).

(** What a pass appends to the two sample lists and adds to the bar. *)
Lemma attempt_samples st i task total :
  dict_get (time_logs st) task = Some total ->
  is_total total ->
  exists st',
    attempt E mc mn i task st = (st', Ok tt)
    /\ context_lengths st'
       = context_lengths st ++ option_list (context_sample E mc mn (i, task))
    /\ token_counts st'
       = token_counts st ++ option_list (token_sample E mc mn (i, task))
    /\ pbar st' = pbar st + (if succeeds E mc mn (i, task) then 1 else 0).
Proof.
  intros Ht Htot.
  destruct (py_add_total total (elapsed E i task) Htot) as [f Ha].
  unfold context_sample, token_sample, succeeds, attempt_item. cbn [fst snd].
  destruct (generated E mc mn i task) as [data|e] eqn:Hg; cbn [rbind].
  - destruct (extracted (make_item mc mn i task data)) as [[text n]|e] eqn:Hx;
      cbn [rbind fst].
    + destruct (tokenizer E mn text) as [tokens|e] eqn:Hk; cbn [rbind].
      * eexists. split; [eapply attempt_succeeded; eauto|].
        cbn. unfold incr. repeat split.
      * eexists. split; [eapply attempt_tokenizer_failed; eauto|].
        cbn. rewrite app_nil_r. repeat split. lia.
    + eexists. split; [eapply attempt_extraction_failed; eauto|].
      cbn. rewrite !app_nil_r. repeat split. lia.
  - eexists. split; [eapply attempt_generation_failed; eauto|].
    cbn. rewrite !app_nil_r. repeat split. lia.
Qed.

Lemma for_each_attempt_samples tl l st :
  totals_ok (time_logs st) tl ->
  (forall a, In a l -> In (snd a) tl) ->
  exists st',
    for_each l (fun a => attempt E mc mn (fst a) (snd a)) st = (st', Ok tt)
    /\ context_lengths st'
       = context_lengths st ++ omap (context_sample E mc mn) l
    /\ token_counts st' = token_counts st ++ omap (token_sample E mc mn) l
    /\ pbar st'
       = pbar st + Z.of_nat (List.length (List.filter (succeeds E mc mn) l)).
Proof.
  revert st. induction l as [|[i task] l IH]; intros st Hok Hin.
  - exists st. cbn. rewrite !app_nil_r. repeat split. lia.
  - assert (Htask : In task tl) by (apply (Hin (i, task)); now left).
    destruct (Hok task Htask) as (total & Ht & Htot).
    destruct (attempt_samples st i task total Ht Htot)
      as (st1 & Hrun & Hctx & Htok & Hbar).
    destruct (attempt_step E mc mn st i task total Ht Htot)
      as (st1' & total' & Hrun' & _ & _ & _ & Htot' & Htime & _).
    rewrite Hrun in Hrun'. injection Hrun' as <-.
    assert (Hok1 : totals_ok (time_logs st1) tl).
    { rewrite Htime. destruct (is_ok _); [|assumption].
      now apply totals_ok_set. }
    destruct (IH st1 Hok1) as (st' & Hrun' & Hctx' & Htok' & Hbar').
    { intros a Ha. apply Hin. now right. }
    exists st'. cbn [for_each fst snd]. unfold bind. rewrite Hrun.
    split; [exact Hrun'|]. split; [|split].
    + rewrite Hctx', Hctx. cbn [omap list_omap].
      destruct (context_sample E mc mn (i, task)); cbn;
        now rewrite <- app_assoc.
    + rewrite Htok', Htok. cbn [omap list_omap].
      destruct (token_sample E mc mn (i, task)); cbn;
        now rewrite <- app_assoc.
    + rewrite Hbar', Hbar. cbn [List.filter].
      destruct (succeeds E mc mn (i, task)); cbn [List.length]; lia.
Qed.

(** A pass appends a token count exactly when it appends an item. *)
Lemma token_sample_succeeds (a : Z * string) :
  is_Some (token_sample E mc mn a) <-> succeeds E mc mn a = true.
Proof.
  unfold token_sample, succeeds, attempt_item.
  destruct (generated E mc mn (fst a) (snd a)) as [data|]; cbn [rbind].
  - destruct (extracted (make_item mc mn (fst a) (snd a) data)) as [[text n]|];
      cbn [rbind fst].
    + destruct (tokenizer E mn text); cbn; split; intros H;
        try discriminate; try reflexivity; eauto.
      destruct H as [? H]. discriminate.
    + cbn. split; [intros [? H]|intros H]; discriminate.
  - cbn. split; [intros [? H]|intros H]; discriminate.
Qed.

Lemma token_samples_length (l : list (Z * string)) :
  List.length (omap (token_sample E mc mn) l)
  = List.length (List.filter (succeeds E mc mn) l).
Proof.
  induction l as [|a l IH]; [reflexivity|].
  cbn [omap list_omap List.filter].
  pose proof (token_sample_succeeds a) as Hiff.
  destruct (token_sample E mc mn a) as [n|], (succeeds E mc mn a); cbn.
  - now rewrite IH.
  - assert (false = true) by (apply Hiff; eauto). discriminate.
  - assert (is_Some (@None Z)) as [? H] by now apply Hiff. discriminate.
  - exact IH.
Qed.

Lemma items_length (l : list (Z * string)) :
  List.length
    (omap (fun a => ok_val (attempt_item E mc mn (fst a) (snd a))) l)
  = List.length (List.filter (succeeds E mc mn) l).
Proof.
  induction l as [|a l IH]; [reflexivity|].
  cbn [omap list_omap List.filter]. unfold succeeds at 1.
  destruct (attempt_item E mc mn (fst a) (snd a)); cbn; now rewrite ?IH.
Qed.

(** A context length without a token count is a pass the tokenizer failed. *)
Lemma context_samples_length (l : list (Z * string)) :
  List.length (omap (context_sample E mc mn) l)
  = (List.length (List.filter (succeeds E mc mn) l)
     + List.length (List.filter (tokenizer_fails E mc mn) l))%nat.
Proof.
  induction l as [|a l IH]; [reflexivity|].
  cbn [omap list_omap List.filter]. unfold tokenizer_fails at 1.
  pose proof (token_sample_succeeds a) as Hiff.
  assert (Hctx : token_sample E mc mn a <> None ->
                 context_sample E mc mn a <> None).
  { unfold token_sample, context_sample.
    destruct (generated E mc mn (fst a) (snd a)) as [data|]; [|tauto].
    destruct (extracted _) as [[text n]|]; [discriminate|tauto]. }
  destruct (context_sample E mc mn a) as [n|],
           (token_sample E mc mn a) as [k|],
           (succeeds E mc mn a); cbn;
    try (assert (false = true) by (apply Hiff; eauto); discriminate);
    try (assert (is_Some (@None Z)) as [? ?] by (now apply Hiff);
         discriminate);
    try (exfalso; now apply Hctx);
    lia.
Qed.

End SampleProperties.

(** ** How a run ends *)

Lemma int_truediv_raises (a b : Z) (e : exn) :
  int_truediv a b = Raise e -> e = ZeroDivisionError \/ e = OverflowError.
Proof.
  unfold int_truediv. destruct (b =? 0); [intros [= <-]; now left|].
  destruct (is_infinite _); [intros [= <-]; now right|discriminate].
Qed.

Lemma py_truediv_total_raises (total : pyval) (n : Z) (e : exn) :
  is_total total ->
  py_truediv total (PInt n) = Raise e ->
  e = ZeroDivisionError \/ e = OverflowError.
Proof.
  intros [->|[f ->]]; cbn [py_truediv as_number].
  - destruct (int_truediv 0 n) eqn:Hd; [discriminate|].
    intros [= <-]. eapply int_truediv_raises, Hd.
  - unfold int_to_float. destruct (is_infinite _); cbn [rbind].
    + intros [= <-]. now right.
    + unfold float_truediv. destruct (PrimFloat.eqb _ _); cbn [rbind].
      * intros [= <-]. now left.
      * discriminate.
Qed.

Lemma dict_get_of_In {V} (d : list (string * V)) k v :
  List.NoDup (dict_keys d) -> In (k, v) d -> dict_get d k = Some v.
Proof.
  induction d as [|[k' v'] d IH]; cbn; [intros _ []|].
  intros Hnd [[= -> ->]|Hin].
  - now rewrite String.eqb_refl.
  - inversion Hnd as [|? ? Hnin Hnd']; subst.
    destruct (String.eqb_spec k' k) as [->|Hne]; [|now apply IH].
    exfalso. apply Hnin. change k with (fst (k, v)). now apply in_map.
Qed.

Lemma avg_time_comprehension_raises (items : pydict) :
  forall acc n e,
  avg_time_comprehension items acc n = Raise e ->
  exists k v, In (k, v) items /\ py_truediv v (PInt n) = Raise e.
Proof.
  induction items as [|[k0 v0] items IH]; intros acc n e; cbn; [discriminate|].
  destruct (py_truediv v0 (PInt n)) as [q|e0] eqn:Hq; cbn [rbind].
  - intros H. destruct (IH _ _ _ H) as (k & v & Hin & Hd). eauto 6.
  - intros [= <-]. eauto.
Qed.


Section Outcome.

Variable E : Env.
Variable tl : list string.
Variables (n mc : Z) (mn : string).

(** The loops raise nothing, whatever the collaborators do, and leave the
    locals that the list of passes determines. *)
Lemma loops_spec :
  exists st1,
    loops E tl n mc mn (initial_locals tl) = (st1, Ok tt)
    /\ error_count st1 = failures E tl n mc mn
    /\ dataset_items st1 = generated_items E tl n mc mn
    /\ context_lengths st1 = omap (context_sample E mc mn) (attempts tl n)
    /\ token_counts st1 = omap (token_sample E mc mn) (attempts tl n)
    /\ pbar st1
       = Z.of_nat (List.length
                     (List.filter (succeeds E mc mn) (attempts tl n)))
    /\ synthetic_samples_json st1 = None
    /\ List.NoDup (dict_keys (time_logs st1))
    /\ (forall k, In k (dict_keys (time_logs st1)) <-> In k tl)
    /\ (forall k v, In (k, v) (time_logs st1) -> is_total v)
    /\ (forall task, In task tl ->
          exists total,
            accumulated_time E mc mn (attempts tl n) task (PInt 0) = Ok total
            /\ dict_get (time_logs st1) task = Some total).
Proof.
  destruct (for_each_attempt E mc mn tl (attempts tl n) (initial_locals tl))
    as (st1 & Hrun & Herr & Hitems & Hok & Hkeys & Hacc & Hfile).
  { apply initial_totals_ok. }
  { apply attempts_snd_In. }
  destruct (for_each_attempt_samples E mc mn tl (attempts tl n)
              (initial_locals tl))
    as (st2 & Hrun2 & Hctx & Htok & Hbar).
  { apply initial_totals_ok. }
  { apply attempts_snd_In. }
  rewrite Hrun in Hrun2. injection Hrun2 as <-.
  destruct (initial_time_logs tl) as (Hnd & Hk & Hz).
  assert (Hnd1 : List.NoDup (dict_keys (time_logs st1))) by now rewrite Hkeys.
  assert (Hk1 : forall k, In k (dict_keys (time_logs st1)) <-> In k tl).
  { intros k. rewrite Hkeys. apply Hk. }
  exists st1. rewrite loops_attempts.
  split; [exact Hrun|]. split; [exact Herr|]. split; [exact Hitems|].
  split; [exact Hctx|]. split; [exact Htok|]. split; [exact Hbar|].
  split; [exact Hfile|]. split; [exact Hnd1|]. split; [exact Hk1|]. split.
  - intros k v Hin.
    assert (Hin' : In k tl).
    { apply Hk1. change k with (fst (k, v)). now apply in_map. }
    destruct (Hok k Hin') as (total & Ht & Htot).
    rewrite (dict_get_of_In _ _ _ Hnd1 Hin) in Ht. now injection Ht as ->.
  - intros task Hin. apply Hacc; [assumption|]. now apply Hz.
Qed.

(** A run either returns the summary, having written the file, or raises
    from one of the two divisions, having written nothing. *)
Lemma benchmark_challenger_on_outcome st1 :
  loops E tl n mc mn (initial_locals tl) = (st1, Ok tt) ->
  (forall k v, In (k, v) (time_logs st1) -> is_total v) ->
  (exists avg rate,
     avg_time_comprehension (time_logs st1) [] n = Ok avg
     /\ int_truediv (error_count st1) (n * Z.of_nat (List.length tl)) = Ok rate
     /\ benchmark_challenger_on E tl n mc mn (initial_locals tl)
        = (set_synthetic_samples_json (Some (dataset_items st1)) st1,
           Ok (PDict
                 [("error_count", PInt (error_count st1));
                  ("error_rate", PFloat rate);
                  ("avg_time_per_task", PDict avg);
                  ("context_length_mean",
                   PFloat (env_mean E (context_lengths st1)));
                  ("context_length_std",
                   PFloat (env_std E (context_lengths st1)));
                  ("token_count_mean", PFloat (env_mean E (token_counts st1)));
                  ("token_count_std", PFloat (env_std E (token_counts st1)))])))
  \/ (exists e,
        (e = ZeroDivisionError \/ e = OverflowError)
        /\ benchmark_challenger_on E tl n mc mn (initial_locals tl)
           = (st1, Raise e)).
Proof.
  intros Hrun Htot.
  unfold benchmark_challenger_on, bind, lift, get, modify, ret. rewrite Hrun.
  destruct (avg_time_comprehension (time_logs st1) [] n) as [avg|e] eqn:Havg.
  - cbn [py_truediv as_number].
    destruct (int_truediv (error_count st1) (n * Z.of_nat (List.length tl)))
      as [rate|e] eqn:Hrate; cbn [rbind].
    + left. exists avg, rate. auto.
    + right. exists e. split; [|reflexivity].
      eapply int_truediv_raises, Hrate.
  - right. exists e. split; [|reflexivity].
    apply avg_time_comprehension_raises in Havg as (k & v & Hin & Hd).
    eapply py_truediv_total_raises; [|exact Hd]. eapply Htot, Hin.
Qed.

End Outcome.

Lemma int_truediv_zero_pos (p : positive) : int_truediv 0 (Zpos p) = Ok 0%float.
Proof. reflexivity. Qed.

Lemma int_truediv_zero_neg (p : positive) :
  int_truediv 0 (Zneg p) = Ok (-0)%float.
Proof. reflexivity. Qed.

Lemma py_truediv_zero_pos (p : positive) :
  py_truediv (PInt 0) (PInt (Zpos p)) = Ok (PFloat 0%float).
Proof. reflexivity. Qed.


Lemma for_each_no_task {X} (l : list X) (st : locals) :
  for_each l (fun _ => for_each (@nil string) (fun _ => ret tt)) st
  = (st, Ok tt).
Proof.
  induction l as [|x l IH]; [reflexivity|].
  cbn [for_each]. unfold bind, ret. exact IH.
Qed.

Section Endings.

Variable E : Env.
Variable tl : list string.
Variables (n mc : Z) (mn : string).


(** X7. The progress bar advances only in the passes that append an item: at
    the end it shows the number of items, and falls short of
    [n_iterations * len(tasks)] by the error count. *)
Theorem progress_bar_counts_items :
  0 <= n ->
  pbar (fst (benchmark_challenger_on E tl n mc mn (initial_locals tl)))
  = Z.of_nat
      (List.length
         (dataset_items
            (fst (benchmark_challenger_on E tl n mc mn (initial_locals tl)))))
  /\ pbar (fst (benchmark_challenger_on E tl n mc mn (initial_locals tl)))
     + error_count
         (fst (benchmark_challenger_on E tl n mc mn (initial_locals tl)))
     = n * Z.of_nat (List.length tl).
Proof.
  intros Hn.
  destruct (loops_spec E tl n mc mn)
    as (st1 & Hloops & Herr & Hitems & _ & _ & Hbar & _ & _ & _ & Htot & _).
  assert (H : pbar st1 = Z.of_nat (List.length (dataset_items st1))
              /\ pbar st1 + error_count st1 = n * Z.of_nat (List.length tl)).
  { rewrite Hbar, Hitems, Herr. unfold generated_items, failures.
    rewrite items_length. split; [reflexivity|].
    rewrite <- (attempts_length tl n Hn).
    rewrite <- (items_plus_failures E mc mn (attempts tl n)).
    rewrite items_length. lia. }
  destruct (benchmark_challenger_on_outcome E tl n mc mn st1 Hloops Htot)
    as [(avg & rate & _ & _ & ->)|(e' & _ & ->)]; exact H.
Qed.

(** X8. The four statistics of the summary are taken over the context
    lengths of the passes whose extraction raised nothing, and over the
    token counts of the passes in which nothing raised. *)
Theorem statistics_over_samples (st' : locals) (summary : pyval) :
  benchmark_challenger_on E tl n mc mn (initial_locals tl)
  = (st', Ok summary) ->
  py_getitem summary "context_length_mean"
  = Ok (PFloat (env_mean E (omap (context_sample E mc mn) (attempts tl n))))
  /\ py_getitem summary "context_length_std"
     = Ok (PFloat (env_std E (omap (context_sample E mc mn) (attempts tl n))))
  /\ py_getitem summary "token_count_mean"
     = Ok (PFloat (env_mean E (omap (token_sample E mc mn) (attempts tl n))))
  /\ py_getitem summary "token_count_std"
     = Ok (PFloat (env_std E (omap (token_sample E mc mn) (attempts tl n)))).
Proof.
  intros Hrun.
  destruct (loops_spec E tl n mc mn)
    as (st1 & Hloops & _ & _ & Hctx & Htok & _ & _ & _ & _ & Htot & _).
  destruct (benchmark_challenger_on_outcome E tl n mc mn st1 Hloops Htot)
    as [(avg & rate & _ & _ & Hret)|(e' & _ & Hraise)].
  - rewrite Hret in Hrun. injection Hrun as <- <-.
    rewrite Hctx, Htok. repeat split.
  - rewrite Hraise in Hrun. discriminate.
Qed.

(** X9. However the run ends, there are as many token counts as items, and
    as many context lengths as items and passes in which only the tokenizer
    raised: such a pass leaves its context length in the statistics though
    its item is dropped. *)
Theorem sample_list_lengths :
  List.length
    (token_counts
       (fst (benchmark_challenger_on E tl n mc mn (initial_locals tl))))
  = List.length
      (dataset_items
         (fst (benchmark_challenger_on E tl n mc mn (initial_locals tl))))
  /\ List.length
       (context_lengths
          (fst (benchmark_challenger_on E tl n mc mn (initial_locals tl))))
     = (List.length
          (dataset_items
             (fst (benchmark_challenger_on E tl n mc mn (initial_locals tl))))
        + List.length
            (List.filter (tokenizer_fails E mc mn) (attempts tl n)))%nat.
Proof.
  destruct (loops_spec E tl n mc mn)
    as (st1 & Hloops & _ & Hitems & Hctx & Htok & _ & _ & _ & _ & Htot & _).
  assert (H : List.length (token_counts st1)
              = List.length (dataset_items st1)
              /\ List.length (context_lengths st1)
                 = (List.length (dataset_items st1)
                    + List.length
                        (List.filter (tokenizer_fails E mc mn)
                           (attempts tl n)))%nat).
  { rewrite Hctx, Htok, Hitems. unfold generated_items.
    now rewrite token_samples_length, context_samples_length, items_length. }
  destruct (benchmark_challenger_on_outcome E tl n mc mn st1 Hloops Htot)
    as [(avg & rate & _ & _ & ->)|(e' & _ & ->)]; exact H.
Qed.

(** X10. Every item written to the file is a dict of the five keys [task],
    [id], [data], [model_id], [max_characters]: its data is the payload the
    generator gave for its pass, its model id and character bound are the
    arguments of the run, and its formatted context can be read, measured
    and encoded. *)
Theorem persisted_item_shape (st' : locals) (summary item : pyval) :
  benchmark_challenger_on E tl n mc mn (initial_locals tl)
  = (st', Ok summary) ->
  (exists items, synthetic_samples_json st' = Some items /\ In item items) ->
  exists fields i task data text n_chars tokens,
    item = PDict fields
    /\ dict_keys fields = ["task"; "id"; "data"; "model_id"; "max_characters"]
    /\ In (i, task) (attempts tl n)
    /\ dict_get fields "task" = Some (PStr task)
    /\ dict_get fields "id" = Some (PInt i)
    /\ generated E mc mn i task = Ok data
    /\ dict_get fields "data" = Some data
    /\ dict_get fields "model_id" = Some (PStr mn)
    /\ dict_get fields "max_characters" = Some (PInt mc)
    /\ formatted_context item = Ok text
    /\ py_len text = Ok n_chars
    /\ tokenizer E mn text = Ok tokens.
Proof.
  intros Hrun (items & Hfile & Hin).
  destruct (benchmark_challenger_on_returns E tl n mc mn st' summary Hrun)
    as (st1 & avg & rate & _ & _ & Hitems & _ & _ & _ & _ & _ & -> & _).
  cbn in Hfile. injection Hfile as <-. rewrite Hitems in Hin.
  unfold generated_items in Hin.
  assert (Hex : exists a, In a (attempts tl n)
                  /\ attempt_item E mc mn (fst a) (snd a) = Ok item).
  { clear -Hin. induction (attempts tl n) as [|a l IH]; [destruct Hin|].
    cbn [omap list_omap] in Hin.
    destruct (attempt_item E mc mn (fst a) (snd a)) as [it|] eqn:Ha;
      cbn in Hin.
    - destruct Hin as [<-|Hin].
      + exists a. split; [now left|assumption].
      + destruct (IH Hin) as (a' & ? & ?). exists a'. split; [now right|auto].
    - destruct (IH Hin) as (a' & ? & ?). exists a'. split; [now right|auto]. }
  destruct Hex as ([i task] & Ha & Hitem). cbn [fst snd] in Hitem.
  unfold attempt_item in Hitem.
  destruct (generated E mc mn i task) as [data|] eqn:Hg; [|discriminate].
  cbn [rbind] in Hitem.
  destruct (extracted (make_item mc mn i task data)) as [[text k]|] eqn:Hx;
    [|discriminate].
  cbn [rbind fst] in Hitem.
  destruct (tokenizer E mn text) as [tokens|] eqn:Hk; [|discriminate].
  injection Hitem as <-.
  unfold extracted in Hx.
  destruct (formatted_context (make_item mc mn i task data)) as [text0|]
    eqn:Hf; [|discriminate].
  cbn [rbind] in Hx.
  destruct (py_len text0) as [k0|] eqn:Hl; [|discriminate].
  injection Hx as -> ->.
  eexists _, i, task, data, text, k, tokens.
  split; [reflexivity|]. repeat split; assumption.
Qed.

End Endings.

(** ** Edge cases of a run *)

(** Without a pass whose generation gives a payload for it, a task's
    running total stays the [0] it started as. *)
Lemma accumulated_time_idle E mc mn (l : list (Z * string)) (task : string)
    (total : pyval) :
  (forall i, is_ok (generated E mc mn i task) = false) ->
  accumulated_time E mc mn l task total = Ok total.
Proof.
  intros Hidle. induction l as [|[i t] l IH]; [reflexivity|].
  cbn [accumulated_time].
  destruct (String.eqb_spec t task) as [->|Hne]; cbn [andb]; [|exact IH].
  rewrite Hidle. exact IH.
Qed.

Lemma no_generation_no_sample E mc mn (l : list (Z * string)) :
  (forall i task, is_ok (generated E mc mn i task) = false) ->
  omap (context_sample E mc mn) l = []
  /\ omap (token_sample E mc mn) l = []
  /\ omap (fun a => ok_val (attempt_item E mc mn (fst a) (snd a))) l = []
  /\ List.filter (fails E mc mn) l = l.
Proof.
  intros Hnone. induction l as [|a l (IH1 & IH2 & IH3 & IH4)]; [easy|].
  cbn [omap list_omap List.filter].
  unfold context_sample at 1, token_sample at 1, fails at 1, succeeds,
    attempt_item.
  specialize (Hnone (fst a) (snd a)).
  destruct (generated E mc mn (fst a) (snd a)); [discriminate|].
  cbn. now rewrite IH4.
Qed.

Lemma all_succeed_no_failure E mc mn (l : list (Z * string)) :
  (forall a, In a l -> succeeds E mc mn a = true) ->
  List.filter (fails E mc mn) l = []
  /\ List.filter (succeeds E mc mn) l = l.
Proof.
  induction l as [|a l IH]; intros Hall; [easy|].
  cbn [List.filter]. unfold fails at 1.
  rewrite (Hall a) by now left. cbn.
  destruct IH as [-> ->]; [|easy]. intros b Hb. apply Hall. now right.
Qed.

Section Edges.

Variable E : Env.
Variables (mc : Z) (mn : string).

(** X5. With an empty task list the run raises [ZeroDivisionError] for every
    iteration count: no pass is made, the averages are the empty dict, and
    the error rate divides [0] by [n_iterations * 0]. *)
Theorem empty_task_list_raises (n : Z) :
  avg_time_comprehension (time_logs (initial_locals [])) [] n = Ok []
  /\ benchmark_challenger_on E [] n mc mn (initial_locals [])
     = (initial_locals [], Raise ZeroDivisionError).
Proof.
  split; [reflexivity|].
  unfold benchmark_challenger_on, loops, bind, lift, get.
  rewrite (for_each_ext (range n) _
             (fun _ => for_each (@nil string) (fun _ => ret tt)))
    by reflexivity.
  rewrite for_each_no_task. cbn [List.length Z.of_nat].
  rewrite Z.mul_0_r. reflexivity.
Qed.


(** X12. A task for which no generation gave a payload keeps the integer
    total [0], and its average, for a positive iteration count, is [0.0]. *)
Theorem idle_task_average_zero (tl : list string) (n : Z) (st' : locals)
    (summary : pyval) (task : string) :
  benchmark_challenger_on E tl n mc mn (initial_locals tl)
  = (st', Ok summary) ->
  0 < n ->
  In task tl ->
  (forall i, is_ok (generated E mc mn i task) = false) ->
  dict_get (time_logs st') task = Some (PInt 0)
  /\ exists avg,
       py_getitem summary "avg_time_per_task" = Ok (PDict avg)
       /\ dict_get avg task = Some (PFloat 0%float).
Proof.
  intros Hrun Hn Hin Hidle.
  destruct (benchmark_challenger_on_returns E tl n mc mn st' summary Hrun)
    as (st1 & avg & rate & _ & _ & _ & Hacc & Hnd & _ & Havg & _ & -> & ->).
  destruct (Hacc task Hin) as (total & Htotal & Ht).
  rewrite (accumulated_time_idle E mc mn _ _ _ Hidle) in Htotal.
  injection Htotal as <-.
  split; [exact Ht|]. exists avg. split; [reflexivity|].
  destruct (avg_time_comprehension_spec _ _ _ _ Havg Hnd task) as [Hsome _].
  destruct (Hsome _ Ht) as (q & Hdiv & Hq). rewrite Hq.
  destruct n as [|p|]; try lia. rewrite py_truediv_zero_pos in Hdiv.
  congruence.
Qed.

(** X13. When no generation gives a payload and the run returns, every pass
    is an error, the file is written with an empty list, and the four
    statistics are those of empty arrays. *)
Theorem all_generations_fail (tl : list string) (n : Z) (st' : locals)
    (summary : pyval) :
  benchmark_challenger_on E tl n mc mn (initial_locals tl)
  = (st', Ok summary) ->
  0 <= n ->
  (forall i task, is_ok (generated E mc mn i task) = false) ->
  synthetic_samples_json st' = Some []
  /\ py_getitem summary "error_count"
     = Ok (PInt (n * Z.of_nat (List.length tl)))
  /\ py_getitem summary "context_length_mean" = Ok (PFloat (env_mean E []))
  /\ py_getitem summary "context_length_std" = Ok (PFloat (env_std E []))
  /\ py_getitem summary "token_count_mean" = Ok (PFloat (env_mean E []))
  /\ py_getitem summary "token_count_std" = Ok (PFloat (env_std E [])).
Proof.
  intros Hrun Hn Hnone.
  destruct (no_generation_no_sample E mc mn (attempts tl n) Hnone)
    as (Hc & Ht & Hi & Hf).
  destruct (loops_spec E tl n mc mn)
    as (st1 & Hloops & Herr & Hitems & Hctx & Htok & _ & _ & _ & _ & Htot & _).
  destruct (benchmark_challenger_on_outcome E tl n mc mn st1 Hloops Htot)
    as [(avg & rate & _ & _ & Hret)|(e' & _ & Hraise)].
  - rewrite Hret in Hrun. injection Hrun as <- <-.
    cbn. rewrite Hitems, Herr, Hctx, Htok.
    unfold generated_items, failures.
    rewrite Hi, Hc, Ht, Hf, (attempts_length tl n Hn). repeat split.
  - rewrite Hraise in Hrun. discriminate.
Qed.

(** X14. When nothing raises in any pass and the run returns, the summary
    counts no error, the error rate is [0.0], and the items and the
    progress bar both number [n_iterations * len(tasks)]. *)
Theorem all_passes_succeed (tl : list string) (n : Z) (st' : locals)
    (summary : pyval) :
  benchmark_challenger_on E tl n mc mn (initial_locals tl)
  = (st', Ok summary) ->
  0 <= n ->
  (forall a, In a (attempts tl n) -> succeeds E mc mn a = true) ->
  py_getitem summary "error_count" = Ok (PInt 0)
  /\ py_getitem summary "error_rate" = Ok (PFloat 0%float)
  /\ Z.of_nat (List.length (dataset_items st')) = n * Z.of_nat (List.length tl)
  /\ pbar st' = n * Z.of_nat (List.length tl).
Proof.
  intros Hrun Hn Hall.
  destruct (all_succeed_no_failure E mc mn (attempts tl n) Hall) as [Hf Hs].
  destruct (loops_spec E tl n mc mn)
    as (st1 & Hloops & Herr & Hitems & _ & _ & Hbar & _ & _ & _ & Htot & _).
  destruct (benchmark_challenger_on_outcome E tl n mc mn st1 Hloops Htot)
    as [(avg & rate & _ & Hrate & Hret)|(e' & _ & Hraise)].
  - rewrite Hret in Hrun. injection Hrun as <- <-.
    assert (Herr0 : error_count st1 = 0).
    { rewrite Herr. unfold failures. now rewrite Hf. }
    rewrite Herr0 in Hrate |- *. cbn.
    rewrite Hitems, Hbar. unfold generated_items.
    rewrite items_length, Hs, (attempts_length tl n Hn).
    assert (Hpos : 0 <= n * Z.of_nat (List.length tl)) by lia.
    destruct (n * Z.of_nat (List.length tl)) as [|p|p]; try lia.
    + discriminate.
    + rewrite int_truediv_zero_pos in Hrate. injection Hrate as <-.
      repeat split.
  - rewrite Hraise in Hrun. discriminate.
Qed.

End Edges.

(** ** The run at the end of the module *)




(** ** Sample runs for the further properties *)



Lemma progress_bar_counts_items_sample :
  0 <= 5
  /\ pbar (fst (benchmark_challenger_on sample_env tasks 5 1000 "universal"
                  (initial_locals tasks)))
     = Z.of_nat
         (List.length
            (dataset_items
               (fst (benchmark_challenger_on sample_env tasks 5 1000
                       "universal" (initial_locals tasks)))))
  /\ pbar (fst (benchmark_challenger_on sample_env tasks 5 1000 "universal"
                  (initial_locals tasks)))
     + error_count
         (fst (benchmark_challenger_on sample_env tasks 5 1000 "universal"
                 (initial_locals tasks)))
     = 5 * Z.of_nat (List.length tasks).
Proof.
  split; [lia|].
  apply (progress_bar_counts_items sample_env tasks 5 1000 "universal"). lia.
Defined.

Lemma statistics_over_samples_sample :
  benchmark_challenger_on sample_env tasks 5 1000 "universal"
    (initial_locals tasks)
  = (sample_final, Ok sample_summary)
  /\ py_getitem sample_summary "context_length_mean"
     = Ok (PFloat (env_mean sample_env
                     (omap (context_sample sample_env 1000 "universal")
                        (attempts tasks 5))))
  /\ py_getitem sample_summary "context_length_std"
     = Ok (PFloat (env_std sample_env
                     (omap (context_sample sample_env 1000 "universal")
                        (attempts tasks 5))))
  /\ py_getitem sample_summary "token_count_mean"
     = Ok (PFloat (env_mean sample_env
                     (omap (token_sample sample_env 1000 "universal")
                        (attempts tasks 5))))
  /\ py_getitem sample_summary "token_count_std"
     = Ok (PFloat (env_std sample_env
                     (omap (token_sample sample_env 1000 "universal")
                        (attempts tasks 5)))).
Proof.
  split; [vm_compute; reflexivity|].
  apply (statistics_over_samples sample_env tasks 5 1000 "universal"
           sample_final sample_summary).
  vm_compute. reflexivity.
Defined.

Lemma persisted_item_shape_sample :
  benchmark_challenger_on sample_env tasks 5 1000 "universal"
    (initial_locals tasks)
  = (sample_final, Ok sample_summary)
  /\ (exists items,
        synthetic_samples_json sample_final = Some items
        /\ In (make_item 1000 "universal" 2 "question_answering"
                 (sample_payload 2)) items)
  /\ exists fields i task data text n_chars tokens,
       make_item 1000 "universal" 2 "question_answering" (sample_payload 2)
       = PDict fields
       /\ dict_keys fields
          = ["task"; "id"; "data"; "model_id"; "max_characters"]
       /\ In (i, task) (attempts tasks 5)
       /\ dict_get fields "task" = Some (PStr task)
       /\ dict_get fields "id" = Some (PInt i)
       /\ generated sample_env 1000 "universal" i task = Ok data
       /\ dict_get fields "data" = Some data
       /\ dict_get fields "model_id" = Some (PStr "universal")
       /\ dict_get fields "max_characters" = Some (PInt 1000)
       /\ formatted_context
            (make_item 1000 "universal" 2 "question_answering"
               (sample_payload 2)) = Ok text
       /\ py_len text = Ok n_chars
       /\ tokenizer sample_env "universal" text = Ok tokens.
Proof.
  split; [vm_compute; reflexivity|].
  split; [eexists; split; [reflexivity|]; vm_compute; right; left; reflexivity|].
  apply (persisted_item_shape sample_env tasks 5 1000 "universal"
           sample_final sample_summary).
  - vm_compute. reflexivity.
  - eexists. split; [reflexivity|]. vm_compute. right. left. reflexivity.
Defined.

Lemma idle_task_average_zero_sample :
  benchmark_challenger_on failing_env tasks 2 1000 "universal"
    (initial_locals tasks)
  = (fst (benchmark_challenger failing_env 2 1000 "universal"),
     Ok (returned (benchmark_challenger failing_env 2 1000 "universal")))
  /\ 0 < 2
  /\ In "question_answering" tasks
  /\ (forall i,
        is_ok (generated failing_env 1000 "universal" i "question_answering")
        = false)
  /\ dict_get
       (time_logs (fst (benchmark_challenger failing_env 2 1000 "universal")))
       "question_answering" = Some (PInt 0)
  /\ exists avg,
       py_getitem (returned (benchmark_challenger failing_env 2 1000 "universal"))
         "avg_time_per_task" = Ok (PDict avg)
       /\ dict_get avg "question_answering" = Some (PFloat 0%float).
Proof.
  split; [vm_compute; reflexivity|]. split; [lia|].
  split; [now left|]. split; [reflexivity|].
  apply (idle_task_average_zero failing_env 1000 "universal" tasks 2).
  - vm_compute. reflexivity.
  - lia.
  - now left.
  - reflexivity.
Defined.

Lemma all_generations_fail_sample :
  benchmark_challenger_on failing_env tasks 2 1000 "universal"
    (initial_locals tasks)
  = (fst (benchmark_challenger failing_env 2 1000 "universal"),
     Ok (returned (benchmark_challenger failing_env 2 1000 "universal")))
  /\ 0 <= 2
  /\ (forall i task,
        is_ok (generated failing_env 1000 "universal" i task) = false)
  /\ synthetic_samples_json
       (fst (benchmark_challenger failing_env 2 1000 "universal")) = Some []
  /\ py_getitem (returned (benchmark_challenger failing_env 2 1000 "universal"))
       "error_count" = Ok (PInt (2 * Z.of_nat (List.length tasks)))
  /\ py_getitem (returned (benchmark_challenger failing_env 2 1000 "universal"))
       "context_length_mean" = Ok (PFloat (env_mean failing_env []))
  /\ py_getitem (returned (benchmark_challenger failing_env 2 1000 "universal"))
       "context_length_std" = Ok (PFloat (env_std failing_env []))
  /\ py_getitem (returned (benchmark_challenger failing_env 2 1000 "universal"))
       "token_count_mean" = Ok (PFloat (env_mean failing_env []))
  /\ py_getitem (returned (benchmark_challenger failing_env 2 1000 "universal"))
       "token_count_std" = Ok (PFloat (env_std failing_env [])).
Proof.
  split; [vm_compute; reflexivity|]. split; [lia|]. split; [reflexivity|].
  apply (all_generations_fail failing_env 1000 "universal" tasks 2).
  - vm_compute. reflexivity.
  - lia.
  - reflexivity.
Defined.

Lemma all_passes_succeed_sample :
  benchmark_challenger_on sample_env tasks 1 1000 "universal"
    (initial_locals tasks)
  = (fst (benchmark_challenger sample_env 1 1000 "universal"),
     Ok (returned (benchmark_challenger sample_env 1 1000 "universal")))
  /\ 0 <= 1
  /\ (forall a, In a (attempts tasks 1) ->
        succeeds sample_env 1000 "universal" a = true)
  /\ py_getitem (returned (benchmark_challenger sample_env 1 1000 "universal"))
       "error_count" = Ok (PInt 0)
  /\ py_getitem (returned (benchmark_challenger sample_env 1 1000 "universal"))
       "error_rate" = Ok (PFloat 0%float)
  /\ Z.of_nat
       (List.length
          (dataset_items (fst (benchmark_challenger sample_env 1 1000 "universal"))))
     = 1 * Z.of_nat (List.length tasks)
  /\ pbar (fst (benchmark_challenger sample_env 1 1000 "universal"))
     = 1 * Z.of_nat (List.length tasks).
Proof.
  split; [vm_compute; reflexivity|]. split; [lia|].
  split; [intros a [<-|[]]; vm_compute; reflexivity|].
  apply (all_passes_succeed sample_env 1000 "universal" tasks 1).
  - vm_compute. reflexivity.
  - lia.
  - intros a [<-|[]]. vm_compute. reflexivity.
Defined.

(** ** Order and growth *)

Lemma filter_map_fst_task (f : Z * string -> bool) (task : string)
    (l : list Z) :
  List.filter f (map (fun i => (i, task)) l)
  = map (fun i => (i, task)) (List.filter (fun i => f (i, task)) l).
Proof.
  induction l as [|i l IH]; [reflexivity|].
  cbn [map List.filter]. destruct (f (i, task)); cbn [map]; now rewrite IH.
Qed.

Lemma range_NoDup (n : Z) : List.NoDup (range n).
Proof. apply NoDup_ListNoDup, NoDup_seqZ. Qed.

(** X15. In the file that [benchmark_challenger] writes, with the one task
    of the source, the ids of the items are the indices of the iterations in
    which nothing raised, in increasing order of iteration, each once: no
    two items share an id. *)
Theorem persisted_ids_distinct (E : Env) (n mc : Z) (mn : string)
    (st' : locals) (summary : pyval) :
  benchmark_challenger E n mc mn = (st', Ok summary) ->
  exists items,
    synthetic_samples_json st' = Some items
    /\ map (fun item => py_getitem item "id") items
       = map (fun i => Ok (PInt i))
           (List.filter
              (fun i => succeeds E mc mn (i, "question_answering")) (range n))
    /\ List.NoDup (map (fun item => py_getitem item "id") items).
Proof.
  unfold benchmark_challenger. intros Hrun.
  destruct (benchmark_challenger_on_returns E tasks n mc mn st' summary Hrun)
    as (st1 & avg & rate & _ & _ & Hitems & _ & _ & _ & _ & _ & -> & _).
  exists (dataset_items st1). split; [reflexivity|].
  assert (Hids : map (fun item => py_getitem item "id") (dataset_items st1)
                 = map (fun i => Ok (PInt i))
                     (List.filter
                        (fun i => succeeds E mc mn (i, "question_answering"))
                        (range n))).
  { pose proof (generated_items_keys E mc mn (attempts tasks n)) as Hkeys.
    apply (f_equal (map fst)) in Hkeys. rewrite !map_map in Hkeys.
    cbn [fst] in Hkeys. rewrite Hitems. unfold generated_items.
    rewrite Hkeys, attempts_tasks, filter_map_fst_task, map_map.
    reflexivity. }
  split; [exact Hids|]. rewrite Hids.
  apply Finite.Injective_map_NoDup.
  - intros i j [= ->]. reflexivity.
  - apply List.NoDup_filter, range_NoDup.
Qed.

Lemma persisted_ids_distinct_sample :
  benchmark_challenger sample_env 5 1000 "universal"
  = (sample_final, Ok sample_summary)
  /\ exists items,
       synthetic_samples_json sample_final = Some items
       /\ map (fun item => py_getitem item "id") items
          = map (fun i => Ok (PInt i))
              (List.filter
                 (fun i =>
                    succeeds sample_env 1000 "universal"
                      (i, "question_answering")) (range 5))
       /\ List.NoDup (map (fun item => py_getitem item "id") items).
Proof.
  split; [vm_compute; reflexivity|].
  apply (persisted_ids_distinct sample_env 5 1000 "universal" sample_final
           sample_summary).
  vm_compute. reflexivity.
Defined.

Section Growth.

Variable E : Env.
Variables (mc : Z) (mn : string).

(** X16. The collections only grow as the passes go by: after any number of
    passes the items, the context lengths and the token counts are a prefix
    of what they are after further passes, the error count and the progress
    bar have not gone down, and [time_logs] has the same keys in the same
    order. *)
Theorem collections_only_grow (tl : list string) (st : locals)
    (l1 l2 : list (Z * string)) :
  totals_ok (time_logs st) tl ->
  (forall a, In a (l1 ++ l2) -> In (snd a) tl) ->
  exists st1 st2,
    for_each l1 (fun a => attempt E mc mn (fst a) (snd a)) st = (st1, Ok tt)
    /\ for_each (l1 ++ l2) (fun a => attempt E mc mn (fst a) (snd a)) st
       = (st2, Ok tt)
    /\ (exists more, dataset_items st2 = dataset_items st1 ++ more)
    /\ (exists more, context_lengths st2 = context_lengths st1 ++ more)
    /\ (exists more, token_counts st2 = token_counts st1 ++ more)
    /\ error_count st1 <= error_count st2
    /\ pbar st1 <= pbar st2
    /\ dict_keys (time_logs st2) = dict_keys (time_logs st1).
Proof.
  intros Hok Hin.
  destruct (for_each_attempt E mc mn tl l1 st Hok)
    as (st1 & Hrun1 & _ & _ & Hok1 & _).
  { intros a Ha. apply Hin, in_or_app. now left. }
  destruct (for_each_attempt E mc mn tl l2 st1 Hok1)
    as (st2 & Hrun2 & Herr & Hitems & _ & Hkeys & _).
  { intros a Ha. apply Hin, in_or_app. now right. }
  destruct (for_each_attempt_samples E mc mn tl l2 st1 Hok1)
    as (st2' & Hrun2' & Hctx & Htok & Hbar).
  { intros a Ha. apply Hin, in_or_app. now right. }
  rewrite Hrun2 in Hrun2'. injection Hrun2' as <-.
  exists st1, st2. split; [exact Hrun1|]. split.
  - rewrite for_each_app. unfold bind. now rewrite Hrun1.
  - split; [eauto|]. split; [eauto|]. split; [eauto|].
    split; [lia|]. split; [lia|]. exact Hkeys.
Qed.

End Growth.

Lemma collections_only_grow_sample :
  totals_ok (time_logs sample_locals) tasks
  /\ (forall a,
        In a ([(0, "question_answering"); (1, "question_answering")]
              ++ [(2, "question_answering")]) ->
        In (snd a) tasks)
  /\ exists st1 st2,
       for_each [(0, "question_answering"); (1, "question_answering")]
         (fun a => attempt sample_env 1000 "universal" (fst a) (snd a))
         sample_locals = (st1, Ok tt)
       /\ for_each
            ([(0, "question_answering"); (1, "question_answering")]
             ++ [(2, "question_answering")])
            (fun a => attempt sample_env 1000 "universal" (fst a) (snd a))
            sample_locals = (st2, Ok tt)
       /\ (exists more, dataset_items st2 = dataset_items st1 ++ more)
       /\ (exists more, context_lengths st2 = context_lengths st1 ++ more)
       /\ (exists more, token_counts st2 = token_counts st1 ++ more)
       /\ error_count st1 <= error_count st2
       /\ pbar st1 <= pbar st2
       /\ dict_keys (time_logs st2) = dict_keys (time_logs st1).
Proof.
  split; [apply initial_totals_ok|].
  split; [intros a [<-|[<-|[<-|[]]]]; now left|].
  apply (collections_only_grow sample_env 1000 "universal" tasks sample_locals
           [(0, "question_answering"); (1, "question_answering")]
           [(2, "question_answering")]).
  - apply initial_totals_ok.
  - intros a [<-|[<-|[<-|[]]]]; now left.
Defined.
